(** * ServerShelf: the dashboard's loader, search and view logic

    A shallow embedding of [public/config.js] (the configuration document
    and its hostname rewriting) and of the [ServerDashboard] component
    (configuration loading, search, highlighting, clipboard copy and the
    gating of what is rendered), with the properties the specification
    states about them. *)

From Stdlib Require Import List NArith Bool Ascii String Arith Lia Sorted.
Import ListNotations.

Set Implicit Arguments.

(* ===================================================================== *)
(** * JavaScript strings *)
(* ===================================================================== *)

(** A JavaScript string is a sequence of UTF-16 code units. *)
Module JS.

Definition codeunit := N.
Definition jsstring := list codeunit.

(** Literals of the source text, written as Rocq strings. *)
Definition js (s : string) : jsstring :=
  map N_of_ascii (list_ascii_of_string s).

(** Truthiness of a string: [""] is falsy. *)
Definition truthy (s : jsstring) : bool :=
  match s with [] => false | _ :: _ => true end.

(** ECMAScript [WhiteSpace] and [LineTerminator] code points, which
    [String.prototype.trim] strips; all of them are single code units. *)
Definition isWhiteSpace (c : codeunit) : bool :=
  ((9 <=? c) && (c <=? 13) || (c =? 32) || (c =? 160) || (c =? 5760)
   || (8192 <=? c) && (c <=? 8202) || (c =? 8232) || (c =? 8233)
   || (c =? 8239) || (c =? 8287) || (c =? 12288) || (c =? 65279))%N.

Fixpoint trimStart (s : jsstring) : jsstring :=
  match s with
  | [] => []
  | c :: s' => if isWhiteSpace c then trimStart s' else s
  end.

Definition trimEnd (s : jsstring) : jsstring := rev (trimStart (rev s)).

Definition trim (s : jsstring) : jsstring := trimEnd (trimStart s).

(** [q] is a prefix of [s]. *)
Fixpoint startsWith (s q : jsstring) : bool :=
  match q, s with
  | [], _ => true
  | _ :: _, [] => false
  | d :: q', c :: s' => (c =? d)%N && startsWith s' q'
  end.

(** [String.prototype.indexOf]: position of the first occurrence, [None]
    for JavaScript's [-1]. *)
Fixpoint indexOf (s q : jsstring) : option nat :=
  if startsWith s q then Some 0
  else match s with
       | [] => None
       | _ :: s' => option_map S (indexOf s' q)
       end.

Definition includes (s q : jsstring) : bool :=
  match indexOf s q with Some _ => true | None => false end.

Definition dollar : codeunit := 36%N.

(** [GetSubstitution] for a string pattern (no captures): in the
    replacement text [$$] is a dollar sign, [$&] the matched text,
    [$`] the text before the match and [$'] the text after it; every
    other code unit, a dollar sign before anything else included, stands
    for itself. *)
Fixpoint GetSubstitution (matched before after repl : jsstring) : jsstring :=
  match repl with
  | [] => []
  | c :: r =>
      if (c =? dollar)%N then
        match r with
        | [] => [c]
        | d :: r' =>
            if (d =? 36)%N then dollar :: GetSubstitution matched before after r'
            else if (d =? 38)%N then matched ++ GetSubstitution matched before after r'
            else if (d =? 96)%N then before ++ GetSubstitution matched before after r'
            else if (d =? 39)%N then after ++ GetSubstitution matched before after r'
            else c :: GetSubstitution matched before after r
        end
      else c :: GetSubstitution matched before after r
  end.

(** [String.prototype.replace] with a string pattern: only the first
    occurrence is replaced. *)
Definition replace (s pat repl : jsstring) : jsstring :=
  match indexOf s pat with
  | None => s
  | Some pos =>
      let before := firstn pos s in
      let after := skipn (pos + List.length pat) s in
      before ++ GetSubstitution pat before after repl ++ after
  end.

(** Strict equality [===] of two strings. *)
Fixpoint streq (a b : jsstring) : bool :=
  match a, b with
  | [], [] => true
  | c :: a', d :: b' => (c =? d)%N && streq a' b'
  | _, _ => false
  end.

(** Lower-casing of the ASCII letters; it agrees with
    [String.prototype.toLowerCase] on strings of ASCII code units. *)
Definition asciiLower (s : jsstring) : jsstring :=
  map (fun c => if ((65 <=? c) && (c <=? 90))%N then (c + 32)%N else c) s.

End JS.
Import JS.

(** Abrupt completions. *)
Inductive Exn :=
| TypeError
| SyntaxError
| DOMException
| ErrorObject (message : jsstring).

Inductive Completion (A : Type) :=
| Normal (a : A)
| Throw (e : Exn).
Arguments Normal {A} a.
Arguments Throw {A} e.

(* ===================================================================== *)
(** * The host environment *)
(* ===================================================================== *)

(** What the component asks of the browser: the hostname the page is served
    from, the locale-independent lower-casing of strings, and the regular
    expression engine.  [regexCompile] is consulted for patterns that pass
    [patternRejected] below; [regexSplit] is [String.prototype.split] with a
    compiled expression and [regexTest] is [RegExp.prototype.test] of a
    global expression from a given [lastIndex], answering the end of the
    match. *)
Record Host := {
  hostname : jsstring;
  toLowerCase : jsstring -> jsstring;
  Regex : Type;
  regexCompile : jsstring -> Completion Regex;
  regexSplit : Regex -> jsstring -> list jsstring;
  regexTest : Regex -> nat -> jsstring -> option nat
}.

(* ===================================================================== *)
(** * Data model *)
(* ===================================================================== *)

Record Service := {
  name : jsstring;
  url : jsstring;
  description : jsstring;
  alt_url : option jsstring;
  icon : option jsstring
}.

(** [Tab] and its [tooltip] have fields called [name], [icon] and
    [description] too; they are [tab_name], [tab_icon] and
    [tip_description] here. *)
Record Tooltip := {
  title : jsstring;
  tip_description : jsstring;
  location : jsstring;
  specs : jsstring
}.

Record Tab := {
  tab_name : jsstring;
  key : jsstring;
  id : jsstring;
  mainUrl : jsstring;
  tab_icon : jsstring;
  tooltip : Tooltip;
  services : list Service
}.

(** The value of [window.dashboardConfig].  The interface declares
    [tabs: Tab[]], but the document is plain JavaScript that nothing
    checks: [tabs = None] is an object without a [tabs] property. *)
Record Config := { tabs : option (list Tab) }.

Record SearchResult := {
  service : Service;
  serverName : jsstring;
  serverKey : jsstring
}.

(* ===================================================================== *)
(** * Search *)
(* ===================================================================== *)

(** [Array.prototype.forEach] with a callback that updates captured state. *)
Definition forEach {A S : Type} (xs : list A) (body : A -> S -> S) (s : S) : S :=
  fold_left (fun acc x => body x acc) xs s.

Section Search.
Variable h : Host.

(** The condition of the [if] inside the two loops; [query] is already
    lower-cased. [service.alt_url?.toLowerCase().includes(query)] is
    [undefined], hence falsy, when [alt_url] is absent. *)
Definition serviceMatches (query : jsstring) (s : Service) : bool :=
  let matchesName := includes (toLowerCase h (name s)) query in
  let matchesDescription := includes (toLowerCase h (description s)) query in
  let matchesUrl := includes (toLowerCase h (url s)) query in
  let matchesAltUrl :=
    match alt_url s with
    | Some a => includes (toLowerCase h a) query
    | None => false
    end in
  matchesName || matchesDescription || matchesUrl || matchesAltUrl.

Definition searchLoop (ts : list Tab) (query : jsstring) : list SearchResult :=
  forEach ts (fun tab results =>
    forEach (services tab) (fun service results =>
      if serviceMatches query service
      then results ++ [{| service := service;
                          serverName := tab_name tab;
                          serverKey := key tab |}]
      else results) results) [].

(** The [searchResults] memo, a function of [searchQuery] and [config]. *)
Definition searchResults (searchQuery : jsstring) (config : option Config)
  : Completion (list SearchResult) :=
  if negb (truthy (trim searchQuery)) then Normal []
  else
    match config with
    | None => Normal []
    | Some c =>
        let query := toLowerCase h searchQuery in
        match tabs c with
        | None => Throw TypeError
        | Some ts => Normal (searchLoop ts query)
        end
    end.

End Search.

(* ===================================================================== *)
(** * The configuration document, [public/config.js] *)
(* ===================================================================== *)

Definition localhost : jsstring := js "localhost".

Section ConfigScript.
Variable h : Host.

(** [if (u.includes("localhost")) u = u.replace("localhost", currentHost)] *)
Definition rewriteUrl (u : jsstring) : jsstring :=
  if includes u localhost then replace u localhost (hostname h) else u.

(** The body of the inner [forEach]; [service.alt_url && ...] skips an
    absent or empty alternate address. *)
Definition rewriteService (s : Service) : Service :=
  {| name := name s;
     url := rewriteUrl (url s);
     description := description s;
     alt_url :=
       match alt_url s with
       | Some a =>
           if truthy a && includes a localhost
           then Some (replace a localhost (hostname h))
           else Some a
       | None => None
       end;
     icon := icon s |}.

(** The body of the outer [forEach].  The document is an object literal,
    so every tab and service is an object of its own and updating each
    in place is a [map]. *)
Definition rewriteTab (t : Tab) : Tab :=
  {| tab_name := tab_name t;
     key := key t;
     id := id t;
     mainUrl := rewriteUrl (mainUrl t);
     tab_icon := tab_icon t;
     tooltip := tooltip t;
     services := map rewriteService (services t) |}.

(** A fetched document either assigns an object literal to
    [window.dashboardConfig] and then rewrites its addresses, as the
    shipped file does, or assigns nothing (an empty or unparsable file). *)
Inductive Document :=
| Assigns (c : Config)
| Silent.

(** Running the script against the current value of the global.  When the
    literal has no [tabs], [tabs.forEach] throws after the assignment:
    the script stops, the assignment stays. *)
Definition runDocument (d : Document) (global : option Config) : option Config :=
  match d with
  | Assigns c =>
      match tabs c with
      | Some ts => Some {| tabs := Some (map rewriteTab ts) |}
      | None => Some c
      end
  | Silent => global
  end.

End ConfigScript.

(* ===================================================================== *)
(** * Component state and effects *)
(* ===================================================================== *)

(** The text shown in the error view: a message of the component's own, or
    the message the engine attached to an exception it raised. *)
Inductive ErrorText :=
| Text (s : jsstring)
| EngineText (e : Exn).

Definition messageOf (e : Exn) : ErrorText :=
  match e with
  | ErrorObject m => Text m
  | _ => EngineText e
  end.

Record State := {
  config : option Config;
  loading : bool;
  error : option ErrorText;
  activeTab : jsstring;
  copiedUrl : option jsstring;
  searchQuery : jsstring;
  isMobile : bool;
  sidebarOpen : bool;
  mounted : bool
}.

(** [useState] initial values. *)
Definition initialState : State :=
  {| config := None; loading := true; error := None; activeTab := [];
     copiedUrl := None; searchQuery := []; isMobile := false;
     sidebarOpen := false; mounted := false |}.

(** Calls of the state setters. *)
Inductive Update :=
| SetConfig (c : Config)
| SetLoading (b : bool)
| SetError (e : option ErrorText)
| SetActiveTab (k : jsstring)
| SetCopiedUrl (u : option jsstring)
| SetSearchQuery (q : jsstring)
| SetIsMobile (b : bool)
| SetSidebarOpen (b : bool)
| SetMounted (b : bool).

Definition applyUpdate (s : State) (u : Update) : State :=
  match u with
  | SetConfig c =>
      {| config := Some c; loading := loading s; error := error s;
         activeTab := activeTab s; copiedUrl := copiedUrl s;
         searchQuery := searchQuery s; isMobile := isMobile s;
         sidebarOpen := sidebarOpen s; mounted := mounted s |}
  | SetLoading b =>
      {| config := config s; loading := b; error := error s;
         activeTab := activeTab s; copiedUrl := copiedUrl s;
         searchQuery := searchQuery s; isMobile := isMobile s;
         sidebarOpen := sidebarOpen s; mounted := mounted s |}
  | SetError e =>
      {| config := config s; loading := loading s; error := e;
         activeTab := activeTab s; copiedUrl := copiedUrl s;
         searchQuery := searchQuery s; isMobile := isMobile s;
         sidebarOpen := sidebarOpen s; mounted := mounted s |}
  | SetActiveTab k =>
      {| config := config s; loading := loading s; error := error s;
         activeTab := k; copiedUrl := copiedUrl s;
         searchQuery := searchQuery s; isMobile := isMobile s;
         sidebarOpen := sidebarOpen s; mounted := mounted s |}
  | SetCopiedUrl u =>
      {| config := config s; loading := loading s; error := error s;
         activeTab := activeTab s; copiedUrl := u;
         searchQuery := searchQuery s; isMobile := isMobile s;
         sidebarOpen := sidebarOpen s; mounted := mounted s |}
  | SetSearchQuery q =>
      {| config := config s; loading := loading s; error := error s;
         activeTab := activeTab s; copiedUrl := copiedUrl s;
         searchQuery := q; isMobile := isMobile s;
         sidebarOpen := sidebarOpen s; mounted := mounted s |}
  | SetIsMobile b =>
      {| config := config s; loading := loading s; error := error s;
         activeTab := activeTab s; copiedUrl := copiedUrl s;
         searchQuery := searchQuery s; isMobile := b;
         sidebarOpen := sidebarOpen s; mounted := mounted s |}
  | SetSidebarOpen b =>
      {| config := config s; loading := loading s; error := error s;
         activeTab := activeTab s; copiedUrl := copiedUrl s;
         searchQuery := searchQuery s; isMobile := isMobile s;
         sidebarOpen := b; mounted := mounted s |}
  | SetMounted b =>
      {| config := config s; loading := loading s; error := error s;
         activeTab := activeTab s; copiedUrl := copiedUrl s;
         searchQuery := searchQuery s; isMobile := isMobile s;
         sidebarOpen := sidebarOpen s; mounted := b |}
  end.

Inductive ToastKind :=
| ConfigurationErrorToast
| ReloadedToast
| ReloadFailedToast
| CopiedToast (label : jsstring)
| CopyFailedToast.

(** What a handler does besides computing: setter calls, toasts, settling
    the promise of [loadConfig], and the DOM and device calls it makes. *)
Inductive Effect :=
| Set_ (u : Update)
| Toast (t : ToastKind)
| Resolve
| Reject (e : Exn)
| ConsoleError
| Vibrate (ms : nat)
| SetTimeout (ms : nat) (u : Update)
| RemoveScript
| AppendScript
| AppendNode
| RemoveNode
| SelectNode.

(** Handlers are written in a writer monad over effects with exceptions. *)
Module Eff.

Definition t (A : Type) : Type := (list Effect * Completion A)%type.

Definition ret {A} (a : A) : t A := ([], Normal a).

Definition bind {A B} (m : t A) (k : A -> t B) : t B :=
  match m with
  | (l, Normal a) => let (l', r) := k a in (l ++ l', r)
  | (l, Throw e) => (l, Throw e)
  end.

Definition emit (e : Effect) : t unit := ([e], Normal tt).

Definition throw {A} (e : Exn) : t A := ([], Throw e).

Definition lift {A} (c : Completion A) : t A := ([], c).

(** [try { m } catch (err) { handler err }] *)
Definition try_catch {A} (m : t A) (handler : Exn -> t A) : t A :=
  match m with
  | (l, Throw e) => let (l', r) := handler e in (l ++ l', r)
  | ok => ok
  end.

(** [try { m } finally { fin }] *)
Definition finally {A} (m : t A) (fin : t unit) : t A :=
  match m, fin with
  | (l, r), (l', Normal _) => (l ++ l', r)
  | (l, _), (l', Throw e) => (l ++ l', Throw e)
  end.

Definition effects {A} (m : t A) : list Effect := fst m.
Definition completion {A} (m : t A) : Completion A := snd m.

End Eff.

Declare Scope eff_scope.
Delimit Scope eff_scope with eff.
Notation "x <- m ;; k" := (Eff.bind m (fun x => k))
  (at level 61, m at next level, right associativity) : eff_scope.
Notation "m ;; k" := (Eff.bind m (fun _ => k))
  (at level 61, right associativity) : eff_scope.

(** The setter calls among the effects of a handler, in order. *)
Fixpoint updatesOf (l : list Effect) : list Update :=
  match l with
  | [] => []
  | Set_ u :: l' => u :: updatesOf l'
  | _ :: l' => updatesOf l'
  end.

Definition applyEffects (s : State) (l : list Effect) : State :=
  fold_left applyUpdate (updatesOf l) s.


(** Sequencing of computations that may throw. *)
Definition andThen {A B} (c : Completion A) (k : A -> Completion B) : Completion B :=
  match c with
  | Normal a => k a
  | Throw e => Throw e
  end.

(** [Array.prototype.map] with a callback that may throw: the first
    exception ends the traversal. *)
Fixpoint mapThrowing {A B} (f : A -> Completion B) (xs : list A) : Completion (list B) :=
  match xs with
  | [] => Normal []
  | x :: xs' =>
      andThen (f x) (fun y =>
      andThen (mapThrowing f xs') (fun ys => Normal (y :: ys)))
  end.

(* ===================================================================== *)
(** * Loading the configuration *)
(* ===================================================================== *)

Definition configNotFound : jsstring := js "Configuration not found in config.js".
Definition loadFailed : jsstring := js "Failed to load config.js file".

Section Loader.
Local Open Scope eff_scope.

(** The body of the promise executor of [loadConfig] up to
    [appendChild]; [existingScript] says whether an element with the id
    [config-script] is in the document. None of these calls throws, so the
    outer [catch] is never entered. *)
Definition loadConfig_submit (existingScript : bool) : Eff.t unit :=
  Eff.try_catch
    (Eff.emit (Set_ (SetLoading true)) ;;
     Eff.emit (Set_ (SetError None)) ;;
     (if existingScript then Eff.emit RemoveScript else Eff.ret tt) ;;
     Eff.emit AppendScript)
    (fun err =>
       Eff.emit ConsoleError ;;
       Eff.emit (Set_ (SetError (Some (messageOf err)))) ;;
       Eff.emit (Set_ (SetLoading false)) ;;
       Eff.emit (Reject err)).

(** [tabs.length] and [tabs[0]]: reading a property of [undefined] throws. *)
Definition readTabs (c : Config) : Eff.t (list Tab) :=
  match tabs c with
  | Some ts => Eff.ret ts
  | None => Eff.throw TypeError
  end.

(** [script.onload].  [activeTab] is the value the closure of [loadConfig]
    captured when the load was requested; [global] is
    [window.dashboardConfig] once the script has run. *)
Definition script_onload (activeTab : jsstring) (global : option Config) : Eff.t unit :=
  Eff.finally
    (Eff.try_catch
       (match global with
        | Some c =>
            Eff.emit (Set_ (SetConfig c)) ;;
            (if negb (truthy activeTab) then
               ts <- readTabs c ;;
               match ts with
               | first :: _ => Eff.emit (Set_ (SetActiveTab (key first)))
               | [] => Eff.ret tt
               end
             else Eff.ret tt) ;;
            Eff.emit Resolve
        | None => Eff.throw (ErrorObject configNotFound)
        end)
       (fun err =>
          Eff.emit ConsoleError ;;
          Eff.emit (Set_ (SetError (Some (messageOf err)))) ;;
          Eff.emit (Reject err)))
    (Eff.emit (Set_ (SetLoading false))).

(** [script.onerror] *)
Definition script_onerror : Eff.t unit :=
  Eff.emit ConsoleError ;;
  Eff.emit (Set_ (SetError (Some (Text loadFailed)))) ;;
  Eff.emit (Set_ (SetLoading false)) ;;
  Eff.emit (Reject (ErrorObject loadFailed)).

End Loader.

(** How the promise of a load was settled: the first [resolve] or [reject]
    counts. *)
Fixpoint settlement (l : list Effect) : option (Completion unit) :=
  match l with
  | [] => None
  | Resolve :: _ => Some (Normal tt)
  | Reject e :: _ => Some (Throw e)
  | _ :: l' => settlement l'
  end.

(** Who called [loadConfig]: the mount effect, or [reloadConfig] behind the
    reload and retry buttons. *)
Inductive Origin := FromMount | FromReload.

(** The [then] and [catch] callbacks of the two callers. *)
Definition reactions (o : Origin) (r : option (Completion unit)) : list Effect :=
  match o, r with
  | FromMount, Some (Throw _) => [Toast ConfigurationErrorToast]
  | FromReload, Some (Normal _) => [Toast ReloadedToast]
  | FromReload, Some (Throw _) => [Toast ReloadFailedToast]
  | _, _ => []
  end.

(** A load whose script has neither run nor failed yet. *)
Record Load := {
  load_id : nat;
  closure_activeTab : jsstring;
  origin : Origin
}.

(** The page: component state, the global the script writes, the loads in
    flight, and everything the handlers did so far. *)
Record World := {
  st : State;
  dashboardConfig : option Config;
  scriptInDocument : bool;
  pending : list Load;
  issued : nat;
  log : list Effect
}.

Definition initialWorld : World :=
  {| st := initialState; dashboardConfig := None; scriptInDocument := false;
     pending := []; issued := 0; log := [] |}.

(** What happens to the page.  [ScriptLoad i d]: the script element of
    load [i] has fetched document [d], runs it and fires [load];
    [ScriptError i]: it fires [error].  Taking a script element out of the
    document does not stop its fetch, so the scripts of earlier requests
    still run, in whatever order their fetches end. *)
Inductive Event :=
| Mount (innerWidth : nat)
| ClickReload
| ScriptLoad (i : nat) (d : Document)
| ScriptError (i : nat)
| ClickTab (tabKey : jsstring)
| ChangeQuery (q : jsstring)
| ClickClear.

Definition perform (w : World) (l : list Effect) : World :=
  {| st := applyEffects (st w) l;
     dashboardConfig := dashboardConfig w;
     scriptInDocument := scriptInDocument w;
     pending := pending w;
     issued := issued w;
     log := log w ++ l |}.

(** [loadConfig()] called from a render whose state is [st w]. *)
Definition requestLoad (o : Origin) (w : World) : World :=
  let w' := perform w (Eff.effects (loadConfig_submit (scriptInDocument w))) in
  {| st := st w';
     dashboardConfig := dashboardConfig w';
     scriptInDocument := true;
     pending := {| load_id := issued w;
                   closure_activeTab := activeTab (st w);
                   origin := o |} :: pending w;
     issued := S (issued w);
     log := log w' |}.

Definition findLoad (i : nat) (w : World) : option Load :=
  find (fun l => load_id l =? i) (pending w).

Definition dropLoad (i : nat) (w : World) : list Load :=
  filter (fun l => negb (load_id l =? i)) (pending w).

Section Page.
Variable h : Host.

(** A load's script has run ([global] is what it left in
    [window.dashboardConfig]) or has failed; the handler runs, then the
    caller's promise callbacks. *)
Definition completeLoad (l : Load) (global : option Config)
           (handler : Eff.t unit) (w : World) : World :=
  let done := Eff.effects handler in
  let w' := perform w (done ++ reactions (origin l) (settlement done)) in
  {| st := st w';
     dashboardConfig := global;
     scriptInDocument := scriptInDocument w';
     pending := dropLoad (load_id l) w;
     issued := issued w';
     log := log w' |}.

Definition step (w : World) (e : Event) : World :=
  match e with
  | Mount innerWidth =>
      perform (requestLoad FromMount w)
              [Set_ (SetMounted true); Set_ (SetIsMobile (innerWidth <? 768))]
  | ClickReload => requestLoad FromReload w
  | ScriptLoad i d =>
      match findLoad i w with
      | Some l =>
          let global := runDocument h d (dashboardConfig w) in
          completeLoad l global (script_onload (closure_activeTab l) global) w
      | None => w
      end
  | ScriptError i =>
      match findLoad i w with
      | Some l => completeLoad l (dashboardConfig w) script_onerror w
      | None => w
      end
  | ClickTab tabKey =>
      perform w (Set_ (SetActiveTab tabKey)
                 :: if isMobile (st w) then [Set_ (SetSidebarOpen false)] else [])
  | ChangeQuery q => perform w [Set_ (SetSearchQuery q)]
  | ClickClear => perform w [Set_ (SetSearchQuery [])]
  end.

Definition run (w : World) (es : list Event) : World := fold_left step es w.

End Page.

(* ===================================================================== *)
(** * Highlighting and rendering *)
(* ===================================================================== *)

(** Patterns that every ECMAScript engine refuses with a [SyntaxError]
    whatever the flags: a backslash at the end, a character class that is
    not closed, and group parentheses that do not balance.  Inside a
    class only a backslash and the closing bracket are special. *)
Fixpoint scanPattern (p : jsstring) (depth : nat) (inClass : bool) : bool :=
  match p with
  | [] => negb (depth =? 0) || inClass
  | c :: p' =>
      if (c =? 92)%N then
        match p' with
        | [] => true
        | _ :: p'' => scanPattern p'' depth inClass
        end
      else if inClass then scanPattern p' depth (negb (c =? 93)%N)
      else if (c =? 91)%N then scanPattern p' depth true
      else if (c =? 40)%N then scanPattern p' (S depth) false
      else if (c =? 41)%N then
        match depth with
        | 0 => true
        | S d => scanPattern p' d false
        end
      else scanPattern p' depth false
  end.

Definition patternRejected (p : jsstring) : bool := scanPattern p 0 false.

(** A piece of highlighted text: as it is, or inside the marking [span]. *)
Inductive Part :=
| Plain (s : jsstring)
| Marked (s : jsstring).

(** The literal of [getServiceIcon], code unit by code unit. *)
Definition fallbackIcon : jsstring := [240; 376; 338]%N.
Definition noConfiguration : jsstring := js "Failed to load server configuration".

(** A card of the search panel. *)
Record Card := {
  card_icon : jsstring;
  card_name : list Part;
  card_description : list Part;
  card_server : jsstring;
  card_url : list Part;
  card_url_copied : bool;
  card_alt : option (list Part * bool)
}.

(** What the component returns, with the markup left out: which of the
    panels are there and what they show.  A tab button carries its tab and
    whether it is drawn as the active one; a search panel without cards is
    the "No services found" panel; [tabContent] is the tab whose service
    cards are shown. *)
Inductive View :=
| LoadingView
| ErrorView (message : ErrorText)
| MobileView (sidebar : list (Tab * bool)) (header : option Tab)
             (clearButton : bool) (searchPanel : option (list Card))
             (tabContent : option Tab)
| DesktopView (clearButton : bool) (searchPanel : option (list Card))
              (tabBar : option (list (Tab * bool)))
              (tabContent : option Tab).

Definition sameOption (a b : option jsstring) : bool :=
  match a, b with
  | Some x, Some y => streq x y
  | None, None => true
  | _, _ => false
  end.

Section Render.
Variable h : Host.

(** [new RegExp(pattern, "gi")] *)
Definition newRegExp (pattern : jsstring) : Completion (Regex h) :=
  if patternRejected pattern then Throw SyntaxError else regexCompile h pattern.

(** [parts.map(part => regex.test(part) ? <span>part</span> : part)]; the
    expression is global, so [test] starts at the [lastIndex] the previous
    call left. *)
Fixpoint markParts (re : Regex h) (lastIndex : nat) (parts : list jsstring) : list Part :=
  match parts with
  | [] => []
  | part :: rest =>
      match regexTest h re lastIndex part with
      | Some e => Marked part :: markParts re e rest
      | None => Plain part :: markParts re 0 rest
      end
  end.

Definition highlightText (text query : jsstring) : Completion (list Part) :=
  if negb (truthy (trim query)) then Normal [Plain text]
  else
    andThen (newRegExp (js "(" ++ query ++ js ")")) (fun regex =>
    Normal (markParts regex 0 (regexSplit h regex text))).

(** [service.icon || fallback] *)
Definition getServiceIcon (s : Service) : jsstring :=
  match icon s with
  | Some i => if truthy i then i else fallbackIcon
  | None => fallbackIcon
  end.

(** One card of [searchResults.map(...)], its expressions in source order. *)
Definition renderCard (s : State) (result : SearchResult) : Completion Card :=
  let svc := service result in
  andThen (highlightText (name svc) (searchQuery s)) (fun n =>
  andThen (highlightText (description svc) (searchQuery s)) (fun d =>
  andThen (highlightText (url svc) (searchQuery s)) (fun u =>
  andThen (match alt_url svc with
           | Some a =>
               if truthy a then
                 andThen (highlightText a (searchQuery s)) (fun p =>
                 Normal (Some (p, sameOption (copiedUrl s) (Some a))))
               else Normal None
           | None => Normal None
           end) (fun a =>
  Normal {| card_icon := getServiceIcon svc;
            card_name := n;
            card_description := d;
            card_server := serverName result;
            card_url := u;
            card_url_copied := sameOption (copiedUrl s) (Some (url svc));
            card_alt := a |})))).

(** [config?.tabs.find((tab) => tab.key === activeTab)] *)
Definition activeTabData (s : State) : Completion (option Tab) :=
  match config s with
  | None => Normal None
  | Some c =>
      match tabs c with
      | None => Throw TypeError
      | Some ts => Normal (find (fun tab => streq (key tab) (activeTab s)) ts)
      end
  end.

Definition tabButtons (s : State) (ts : list Tab) : list (Tab * bool) :=
  map (fun tab => (tab, streq (activeTab s) (key tab))) ts.

(** [error] as a condition: [null] and the empty string are falsy. *)
Definition errorShown (e : option ErrorText) : option ErrorText :=
  match e with
  | Some (Text []) => None
  | other => other
  end.

(** One render of [ServerDashboard]: the memo and [activeTabData] are
    computed first, then the loading and error returns, then the layout. *)
Definition render (s : State) : Completion View :=
  andThen (searchResults h (searchQuery s) (config s)) (fun results =>
  andThen (activeTabData s) (fun tabData =>
  if loading s || negb (mounted s) then Normal LoadingView
  else
    match errorShown (error s), config s with
    | Some e, _ => Normal (ErrorView e)
    | None, None => Normal (ErrorView (Text noConfiguration))
    | None, Some c =>
        match tabs c with
        | None => Throw TypeError
        | Some ts =>
            if isMobile s then
              if truthy (searchQuery s) then
                andThen (mapThrowing (renderCard s) results) (fun cards =>
                Normal (MobileView (tabButtons s ts) tabData true (Some cards) None))
              else
                Normal (MobileView (tabButtons s ts) tabData false None tabData)
            else
              andThen (if truthy (searchQuery s)
                       then andThen (mapThrowing (renderCard s) results)
                                    (fun cards => Normal (Some cards))
                       else Normal None) (fun panel =>
              Normal (DesktopView
                        (truthy (searchQuery s))
                        panel
                        (if negb (truthy (searchQuery s))
                         then Some (tabButtons s ts) else None)
                        (if negb (truthy (searchQuery s))
                         then tabData else None)))
        end
    end)).

End Render.

Definition searchPanelOf (v : View) : option (list Card) :=
  match v with
  | MobileView _ _ _ p _ => p
  | DesktopView _ p _ _ => p
  | _ => None
  end.

Definition tabContentOf (v : View) : option Tab :=
  match v with
  | MobileView _ _ _ _ t => t
  | DesktopView _ _ _ t => t
  | _ => None
  end.

Definition isDashboard (v : View) : bool :=
  match v with
  | MobileView _ _ _ _ _ | DesktopView _ _ _ _ => true
  | _ => false
  end.

(* ===================================================================== *)
(** * Copying to the clipboard *)
(* ===================================================================== *)

(** What the device answers during one call of [copyToClipboard]. *)
Record Device := {
  canVibrate : bool;
  clipboardPresent : bool;
  isSecureContext : bool;
  writeText : jsstring -> Completion unit;
  execCommandCopy : Completion bool;
  userAgent : jsstring
}.

Definition copyCommandFailed : jsstring := js "Copy command failed".

Section Clipboard.
Variable h : Host.
Local Open Scope eff_scope.

Definition triggerHapticForCopy (d : Device) : Eff.t unit :=
  if canVibrate d then Eff.emit (Vibrate 50) else Eff.ret tt.

(** [copyToClipboard(url, label)]; the completion is that of the [async]
    function's body, so [Normal] is a fulfilled promise. *)
Definition copyToClipboard (d : Device) (s : State) (url label : jsstring) : Eff.t unit :=
  triggerHapticForCopy d ;;
  Eff.try_catch
    ((if clipboardPresent d && isSecureContext d then
        Eff.lift (writeText d url)
      else
        Eff.emit AppendNode ;;
        successful <- Eff.lift (execCommandCopy d) ;;
        Eff.emit RemoveNode ;;
        if negb successful then Eff.throw (ErrorObject copyCommandFailed)
        else Eff.ret tt) ;;
     Eff.emit (Set_ (SetCopiedUrl (Some url))) ;;
     Eff.emit (Toast (CopiedToast label)) ;;
     Eff.emit (SetTimeout 1500 (SetCopiedUrl None)))
    (fun err =>
       Eff.emit ConsoleError ;;
       (if isMobile s then
          let ua := toLowerCase h (userAgent d) in
          if includes ua (js "ios") || includes ua (js "iphone")
             || includes ua (js "ipad")
          then Eff.emit AppendNode ;; Eff.emit SelectNode ;; Eff.emit RemoveNode
          else Eff.ret tt
        else Eff.ret tt) ;;
       Eff.emit (Toast CopyFailedToast)).

End Clipboard.

(* ===================================================================== *)
(** * Sidebar, theme and timers *)
(* ===================================================================== *)

(** What a [mousedown] hit: whether [getElementById] finds the elements
    [mobile-sidebar] and [menu-button], and whether each contains the
    target of the event. *)
Record Click := {
  sidebarFound : bool;
  inSidebar : bool;
  menuFound : bool;
  inMenu : bool
}.

(** [handleClickOutside]; the listener is registered again whenever
    [isMobile] or [sidebarOpen] changes, so it reads their current values. *)
Definition handleClickOutside (s : State) (c : Click) : list Effect :=
  if isMobile s && sidebarOpen s then
    if sidebarFound c && negb (inSidebar c) && menuFound c && negb (inMenu c)
    then [Set_ (SetSidebarOpen false)]
    else []
  else [].

Definition dark : jsstring := js "dark".
Definition light : jsstring := js "light".

(** [toggleTheme]: the argument it passes to [setTheme], [None] when it
    returns before calling it. [resolvedTheme] is [undefined] until the
    theme provider has resolved. *)
Definition toggleTheme (mounted : bool) (resolvedTheme : option jsstring)
  : option jsstring :=
  if negb mounted then None
  else Some (if sameOption resolvedTheme (Some dark) then light else dark).

(** The timers a handler started: delay and the setter call of the
    callback. *)
Fixpoint timersOf (l : list Effect) : list (nat * Update) :=
  match l with
  | [] => []
  | SetTimeout ms u :: l' => (ms, u) :: timersOf l'
  | _ :: l' => timersOf l'
  end.

(* ===================================================================== *)
(** * Vocabulary of the specification *)
(* ===================================================================== *)

(** [q] occurs in [s] as a contiguous run of code units. *)
Definition occursIn (q s : jsstring) : Prop :=
  exists a b, s = a ++ q ++ b.

(** A query that is empty or made of whitespace only. *)
Definition blank (q : jsstring) : bool := forallb isWhiteSpace q.

(** [field] contains [q] when the case of letters is ignored. *)
Definition containsIgnoringCase (h : Host) (field q : jsstring) : Prop :=
  occursIn (toLowerCase h q) (toLowerCase h field).

(** The search predicate: one of the four fields contains the query; an
    absent [alt_url] contributes nothing. *)
Definition matchesAnyField (h : Host) (q : jsstring) (s : Service) : Prop :=
  containsIgnoringCase h (name s) q \/
  containsIgnoringCase h (description s) q \/
  containsIgnoringCase h (url s) q \/
  (exists a, alt_url s = Some a /\ containsIgnoringCase h a q).

(** Every service of a configuration with the name and key of its tab:
    tabs in document order, services in document order within each tab. *)
Definition entries (ts : list Tab) : list SearchResult :=
  flat_map (fun tab =>
    map (fun s => {| service := s; serverName := tab_name tab; serverKey := key tab |})
        (services tab)) ts.

(** The first occurrence of [pat] in [u] is replaced by [repl] and the
    rest of [u] is kept; a [u] without [pat] is kept whole. *)
Definition firstOccurrenceReplaced (pat repl u u' : jsstring) : Prop :=
  (~ occursIn pat u /\ u' = u) \/
  (exists a b, u = a ++ pat ++ b /\
               (forall a' b', u = a' ++ pat ++ b' -> List.length a <= List.length a') /\
               u' = a ++ repl ++ b).

Definition serviceRewritten (h : Host) (s s' : Service) : Prop :=
  name s' = name s /\ description s' = description s /\ icon s' = icon s /\
  firstOccurrenceReplaced localhost (hostname h) (url s) (url s') /\
  match alt_url s, alt_url s' with
  | Some a, Some a' => firstOccurrenceReplaced localhost (hostname h) a a'
  | None, None => True
  | _, _ => False
  end.

Definition tabRewritten (h : Host) (t t' : Tab) : Prop :=
  tab_name t' = tab_name t /\ key t' = key t /\ id t' = id t /\
  tab_icon t' = tab_icon t /\ tooltip t' = tooltip t /\
  firstOccurrenceReplaced localhost (hostname h) (mainUrl t) (mainUrl t') /\
  Forall2 (serviceRewritten h) (services t) (services t').

(** What the specification asks of the rewriting: every occurrence of
    [pat] replaced by [repl], scanning from the left. [skip] counts the
    code units of an occurrence that are still to be passed over. *)
Fixpoint replaceEveryOccurrence (pat repl s : jsstring) (skip : nat) : jsstring :=
  match s with
  | [] => []
  | c :: s' =>
      match skip with
      | S k => replaceEveryOccurrence pat repl s' k
      | 0 =>
          if startsWith s pat
          then repl ++ replaceEveryOccurrence pat repl s' (List.length pat - 1)
          else c :: replaceEveryOccurrence pat repl s' 0
      end
  end.

(** A stored configuration the component can read: none, or one that has
    a [tabs] sequence. *)
Definition shaped (c : option Config) : bool :=
  match c with
  | Some c' => match tabs c' with Some _ => true | None => false end
  | None => true
  end.

(** What the handlers of one event added to the log. *)
Definition newEffects (w w' : World) : list Effect :=
  skipn (List.length (log w)) (log w').

Fixpoint toastsOf (l : list Effect) : list ToastKind :=
  match l with
  | [] => []
  | Toast t :: l' => t :: toastsOf l'
  | _ :: l' => toastsOf l'
  end.


(** The secure clipboard write is not available or is refused. *)
Definition secureWriteFails (d : Device) (url : jsstring) : Prop :=
  clipboardPresent d && isSecureContext d = false \/
  exists e, writeText d url = Throw e.

(** The selection-based copy throws or reports that nothing was copied. *)
Definition fallbackFails (d : Device) : Prop :=
  execCommandCopy d <> Normal true.




(** One of the two ways of copying goes through: the secure write when
    the clipboard is there in a secure context, the copy command
    otherwise. *)
Definition copySucceeds (d : Device) (url : jsstring) : Prop :=
  (clipboardPresent d && isSecureContext d = true /\ writeText d url = Normal tt) \/
  (clipboardPresent d && isSecureContext d = false /\ execCommandCopy d = Normal true).

(** One of the addresses of a tab contains [localhost]. *)
Definition mentionsLocalhost (t : Tab) : bool :=
  includes (mainUrl t) localhost
  || existsb (fun s =>
       includes (url s) localhost
       || match alt_url s with
          | Some a => includes a localhost
          | None => false
          end) (services t).

(** The setter calls a load makes. *)
Definition isLoadUpdate (u : Update) : bool :=
  match u with
  | SetConfig _ | SetLoading _ | SetError _ | SetActiveTab _ => true
  | _ => false
  end.

(** The toast the caller of [loadConfig] shows for a settled promise. *)
Definition toastFor (o : Origin) (resolved : bool) : list ToastKind :=
  match o, resolved with
  | FromMount, true => []
  | FromMount, false => [ConfigurationErrorToast]
  | FromReload, true => [ReloadedToast]
  | FromReload, false => [ReloadFailedToast]
  end.

(** The tab buttons a view offers: the sidebar of the mobile layout, the
    tab bar of the desktop layout when it is there. *)
Definition tabListOf (v : View) : option (list (Tab * bool)) :=
  match v with
  | MobileView sidebar _ _ _ _ => Some sidebar
  | DesktopView _ _ bar _ => bar
  | _ => None
  end.

(** The alternate address of a service as the cards test it: there and not
    the empty string. *)
Definition hasAltUrl (s : Service) : bool :=
  match alt_url s with
  | Some a => truthy a
  | None => false
  end.

(* ===================================================================== *)
(** * What the page offers *)
(* ===================================================================== *)

(** A button whose [onClick] is [reloadConfig] is in the tree of a view:
    Retry in the error view, the reload button of the sidebar header and
    of the desktop header; the loading view has none. *)
Definition reloadButtonIn (v : View) : bool :=
  match v with
  | LoadingView => false
  | ErrorView _ | MobileView _ _ _ _ _ | DesktopView _ _ _ _ => true
  end.

(** The button that clears the search is in the tree of a view. *)
Definition clearButtonIn (v : View) : bool :=
  match v with
  | MobileView _ _ c _ _ => c
  | DesktopView c _ _ _ => c
  | _ => false
  end.

(** A tab button of a view carries the key [k]. *)
Definition tabButtonIn (k : jsstring) (v : View) : bool :=
  match tabListOf v with
  | Some buttons => existsb (fun b => streq (key (fst b)) k) buttons
  | None => false
  end.

Section Offers.
Variable h : Host.

(** Whether the page in world [w] can receive event [e].  The mount
    effects run once on a fresh page, and a second time right after when
    React replays them, as its Strict Mode does in development; a script
    event needs its load to be pending; a click or a key stroke needs the
    last render to have succeeded with the control in its tree. *)
Definition offered (w : World) (e : Event) : bool :=
  match e with
  | Mount _ =>
      (issued w =? 0) || ((issued w =? 1) && (List.length (pending w) =? 1))
  | ScriptLoad i _ | ScriptError i =>
      match findLoad i w with Some _ => true | None => false end
  | ClickReload =>
      match render h (st w) with Normal v => reloadButtonIn v | Throw _ => false end
  | ClickTab k =>
      match render h (st w) with Normal v => tabButtonIn k v | Throw _ => false end
  | ChangeQuery _ =>
      match render h (st w) with Normal v => isDashboard v | Throw _ => false end
  | ClickClear =>
      match render h (st w) with Normal v => clearButtonIn v | Throw _ => false end
  end.

(** A sequence of events the page can receive one after the other. *)
Fixpoint playable (w : World) (es : list Event) : bool :=
  match es with
  | [] => true
  | e :: es' => offered w e && playable (step h w e) es'
  end.

End Offers.

(* ===================================================================== *)
(** * Sample data *)
(* ===================================================================== *)

(** A host served from [example.org] with ASCII lower-casing and an engine
    that accepts every pattern it is asked about and never matches. *)
Definition demoHost : Host :=
  {| hostname := js "example.org";
     toLowerCase := asciiLower;
     Regex := jsstring;
     regexCompile := fun p => Normal p;
     regexSplit := fun _ text => [text];
     regexTest := fun _ _ _ => None |}.

(** The same page reached under a name with a dollar sign in it. *)
Definition dollarHost : Host :=
  {| hostname := js "a$&b";
     toLowerCase := asciiLower;
     Regex := jsstring;
     regexCompile := fun p => Normal p;
     regexSplit := fun _ text => [text];
     regexTest := fun _ _ _ => None |}.

Definition noTooltip : Tooltip :=
  {| title := []; tip_description := []; location := []; specs := [] |}.

Definition mkService (n u d : string) (alt : option string) : Service :=
  {| name := js n; url := js u; description := js d;
     alt_url := option_map js alt; icon := None |}.

Definition mkTab (k main : string) (svcs : list Service) : Tab :=
  {| tab_name := js k; key := js k; id := js k; mainUrl := js main;
     tab_icon := js "home"; tooltip := noTooltip; services := svcs |}.

Definition plex : Service := mkService "Plex" "http://x:32400" "stream" None.
Definition gitea : Service := mkService "Gitea" "http://y:3000" "git" None.
Definition minio : Service :=
  mkService "MinIO" "http://192.168.0.120:9001"
            "Object storage service (S3-compatible)" None.

(** The two-tab scenario of the specification. *)
Definition twoTabs : list Tab :=
  [mkTab "a" "http://x" [plex]; mkTab "b" "http://y" [gitea]].

Definition emptyConfig : Config := {| tabs := Some [] |}.
Definition unshapedConfig : Config := {| tabs := None |}.

(** A tab whose address names [localhost] twice. *)
Definition localTab : Tab :=
  mkTab "local" "http://localhost:8080/?next=localhost" [].

Definition rootTab : Tab := mkTab "root" "http://localhost/" [].

Definition readyState (ts : list Tab) (active query : string) (mobile : bool) : State :=
  {| config := Some {| tabs := Some ts |}; loading := false; error := None;
     activeTab := js active; copiedUrl := None; searchQuery := js query;
     isMobile := mobile; sidebarOpen := false; mounted := true |}.

Definition mediaTab : Tab := mkTab "media" "http://192.168.0.120" [minio].

(** The page after mounting on a wide screen, its first load in flight. *)
Definition mountedWorld : World := run demoHost initialWorld [Mount 1024].

(** The page once the first load has brought the two-tab scenario. *)
Definition loadedWorld : World :=
  run demoHost mountedWorld [ScriptLoad 0 (Assigns {| tabs := Some twoTabs |})].


(** The configuration a newer request fetches in the reload scenario. *)
Definition newerConfig : Config := {| tabs := Some [mkTab "b" "http://y" [gitea]] |}.

(** A device without a usable clipboard whose copy command copies nothing. *)
Definition lockedDevice : Device :=
  {| canVibrate := true; clipboardPresent := false; isSecureContext := false;
     writeText := fun _ => Throw DOMException;
     execCommandCopy := Normal false;
     userAgent := js "Mozilla/5.0 (iPhone)" |}.

(** The page opened on the machine that serves it. *)
Definition localHost : Host :=
  {| hostname := localhost;
     toLowerCase := asciiLower;
     Regex := jsstring;
     regexCompile := fun p => Normal p;
     regexSplit := fun _ text => [text];
     regexTest := fun _ _ _ => None |}.

(** A device whose secure clipboard write goes through. *)
Definition grantingDevice : Device :=
  {| canVibrate := false; clipboardPresent := true; isSecureContext := true;
     writeText := fun _ => Normal tt;
     execCommandCopy := Normal false;
     userAgent := js "Mozilla/5.0" |}.

(** A device whose secure clipboard write is refused although its copy
    command would work. *)
Definition refusingDevice : Device :=
  {| canVibrate := false; clipboardPresent := true; isSecureContext := true;
     writeText := fun _ => Throw DOMException;
     execCommandCopy := Normal true;
     userAgent := js "Mozilla/5.0" |}.

(** The loaded two-tab page after the script of a reload failed to load. *)
Definition failedWorld : World :=
  run demoHost loadedWorld [ClickReload; ScriptError 1].


(** A page whose mount effects ran twice: the first load has brought the
    two-tab scenario, the second is still pending when a reload is
    requested. *)
Definition overlapTrace : list Event :=
  [Mount 1024; Mount 1024;
   ScriptLoad 0 (Assigns {| tabs := Some twoTabs |});
   ClickReload].

Definition overlapWorld : World := run demoHost initialWorld overlapTrace.

(** A desktop state with the two-tab scenario, for copying. *)
Definition desktopState : State := readyState twoTabs "a" "" false.

Unset Implicit Arguments.

(* ===================================================================== *)
(** * Strings: what the builtins compute *)
(* ===================================================================== *)

Module JSFacts.

Lemma startsWith_spec (s q : jsstring) :
  startsWith s q = true <-> exists b, s = q ++ b.
Proof.
  revert s; induction q as [|d q IH]; intros [|c s]; simpl.
  - split; [intros _; now exists [] | reflexivity].
  - split; [intros _; now exists (c :: s) | reflexivity].
  - split; [discriminate | intros [b Hb]; discriminate].
  - rewrite andb_true_iff, N.eqb_eq, IH. split.
    + intros [-> [b ->]]. now exists b.
    + intros [b Hb]. injection Hb as -> ->. split; [reflexivity | now exists b].
Qed.

Lemma indexOf_eq (s q : jsstring) :
  indexOf s q =
  if startsWith s q then Some 0
  else match s with
       | [] => None
       | _ :: s' => option_map S (indexOf s' q)
       end.
Proof. now destruct s. Qed.

Lemma indexOf_Some (s q : jsstring) (n : nat) :
  indexOf s q = Some n ->
  exists a b, s = a ++ q ++ b /\ List.length a = n /\
              forall a' b', s = a' ++ q ++ b' -> n <= List.length a'.
Proof.
  revert n; induction s as [|c s IH]; intros n; rewrite indexOf_eq.
  - destruct (startsWith [] q) eqn:E; [|discriminate].
    intros [= <-]. apply startsWith_spec in E as [b Hb].
    exists [], b. repeat split; [assumption | intros; lia].
  - destruct (startsWith (c :: s) q) eqn:E.
    + intros [= <-]. apply startsWith_spec in E as [b Hb].
      exists [], b. repeat split; [assumption | intros; lia].
    + destruct (indexOf s q) as [m|] eqn:Em; [|discriminate].
      intros [= <-]. destruct (IH m eq_refl) as (a & b & Hs & Hlen & Hfirst).
      exists (c :: a), b. repeat split.
      * simpl. now rewrite Hs.
      * simpl. now rewrite Hlen.
      * intros a' b' H'. destruct a' as [|c' a'].
        -- exfalso. assert (startsWith (c :: s) q = true) as X
             by (apply startsWith_spec; now exists b').
           congruence.
        -- simpl in H'. injection H' as _ H'. specialize (Hfirst _ _ H').
           simpl. lia.
Qed.

Lemma indexOf_None (s q : jsstring) :
  indexOf s q = None -> ~ occursIn q s.
Proof.
  induction s as [|c s IH]; rewrite indexOf_eq.
  - destruct (startsWith [] q) eqn:E; [discriminate|].
    intros _ (a & b & H). destruct a; [|discriminate].
    assert (startsWith [] q = true) as X by (apply startsWith_spec; now exists b).
    congruence.
  - destruct (startsWith (c :: s) q) eqn:E; [discriminate|].
    destruct (indexOf s q) eqn:Em; [discriminate|].
    intros _ (a & b & H). destruct a as [|c' a].
    + assert (startsWith (c :: s) q = true) as X
        by (apply startsWith_spec; now exists b).
      congruence.
    + simpl in H. injection H as _ H. apply IH; [reflexivity | now exists a, b].
Qed.

Lemma includes_spec (s q : jsstring) :
  includes s q = true <-> occursIn q s.
Proof.
  unfold includes. destruct (indexOf s q) as [n|] eqn:E.
  - split; [intros _ | reflexivity].
    destruct (indexOf_Some _ _ _ E) as (a & b & H & _). now exists a, b.
  - split; [discriminate | intros H]. now apply indexOf_None in E.
Qed.

Lemma trimStart_nil (s : jsstring) :
  trimStart s = [] <-> blank s = true.
Proof.
  unfold blank. induction s as [|c s IH]; simpl.
  - tauto.
  - destruct (isWhiteSpace c); simpl; [exact IH | split; discriminate].
Qed.

Lemma trimStart_head (s : jsstring) :
  match trimStart s with
  | [] => True
  | c :: _ => isWhiteSpace c = false
  end.
Proof.
  induction s as [|c s IH]; simpl; [exact I|].
  destruct (isWhiteSpace c) eqn:E; [exact IH | exact E].
Qed.

Lemma blank_rev (s : jsstring) : blank (rev s) = blank s.
Proof.
  unfold blank. induction s as [|c s IH]; simpl; [reflexivity|].
  rewrite forallb_app, IH. simpl. rewrite andb_true_r. apply andb_comm.
Qed.

(** [trim] leaves nothing exactly of the blank strings. *)
Lemma trim_nil (s : jsstring) :
  truthy (trim s) = false <-> blank s = true.
Proof.
  unfold trim, trimEnd. split.
  - intros H.
    assert (trimStart (rev (trimStart s)) = []) as X.
    { destruct (trimStart (rev (trimStart s))) as [|c r] eqn:E; [reflexivity|].
      simpl in H. destruct (rev r ++ [c]) eqn:E'; [|discriminate].
      now destruct (rev r). }
    apply trimStart_nil in X. rewrite blank_rev in X.
    pose proof (trimStart_head s) as Hd.
    destruct (trimStart s) as [|c r] eqn:E.
    + now apply trimStart_nil.
    + unfold blank in X. simpl in X. rewrite Hd in X. discriminate.
  - intros H. apply trimStart_nil in H. now rewrite H.
Qed.

Lemma streq_spec (a b : jsstring) : streq a b = true <-> a = b.
Proof.
  revert b; induction a as [|c a IH]; intros [|d b]; simpl;
    try (split; [discriminate | discriminate]); [tauto|].
  rewrite andb_true_iff, N.eqb_eq, IH. split.
  - now intros [-> ->].
  - now intros [= -> ->].
Qed.

Lemma GetSubstitution_plain (matched before after repl : jsstring) :
  ~ In dollar repl -> GetSubstitution matched before after repl = repl.
Proof.
  induction repl as [|c r IH]; simpl; [reflexivity|]. intros H.
  destruct (N.eqb_spec c dollar) as [->|_].
  - exfalso. apply H. now left.
  - rewrite IH; [reflexivity | intros X; apply H; now right].
Qed.

Lemma replace_first (s pat repl : jsstring) :
  ~ In dollar repl ->
  firstOccurrenceReplaced pat repl s (replace s pat repl).
Proof.
  intros Hd. unfold replace. destruct (indexOf s pat) as [n|] eqn:E.
  - right. destruct (indexOf_Some _ _ _ E) as (a & b & Hs & Hlen & Hfirst).
    exists a, b. repeat split; [assumption | intros; rewrite Hlen; eauto |].
    rewrite GetSubstitution_plain by assumption. subst n.
    rewrite Hs at 1 2. rewrite firstn_app, Nat.sub_diag, firstn_all. simpl.
    rewrite app_nil_r. do 2 f_equal.
    rewrite app_assoc, skipn_app, <- length_app, skipn_all, Nat.sub_diag.
    reflexivity.
  - left. split; [now apply indexOf_None | reflexivity].
Qed.

End JSFacts.
Import JSFacts.

(* ===================================================================== *)
(** * Search *)
(* ===================================================================== *)

Lemma filter_map_comm {A B} (p : B -> bool) (f : A -> B) (l : list A) :
  filter p (map f l) = map f (filter (fun a => p (f a)) l).
Proof.
  induction l as [|a l IH]; simpl; [reflexivity|].
  destruct (p (f a)); simpl; now rewrite IH.
Qed.

(** A loop that pushes [f x] for the [x] that pass [p] appends the
    filtered, mapped list to what was there. *)
Lemma forEach_push {A B} (p : A -> bool) (f : A -> B) (xs : list A) (acc : list B) :
  forEach xs (fun x results => if p x then results ++ [f x] else results) acc
  = acc ++ map f (filter p xs).
Proof.
  unfold forEach. revert acc; induction xs as [|x xs IH]; intros acc; simpl.
  - now rewrite app_nil_r.
  - rewrite IH. destruct (p x); simpl; [now rewrite <- app_assoc | reflexivity].
Qed.

Lemma forEach_cons {A S} (x : A) (xs : list A) (body : A -> S -> S) (s : S) :
  forEach (x :: xs) body s = forEach xs body (body x s).
Proof. reflexivity. Qed.

Lemma StronglySorted_shift (ks : list nat) :
  StronglySorted lt ks -> StronglySorted lt (map S ks).
Proof.
  induction 1 as [|k ks Hs IH Hall]; simpl; constructor; [assumption|].
  rewrite Forall_map. eapply Forall_impl; [|exact Hall]. simpl. intros; lia.
Qed.

(** The elements [filter] keeps are those at the passing positions, each
    position once and in increasing order. *)
Lemma filter_positions {A} (p : A -> bool) (l : list A) :
  exists ks,
    map Some (filter p l) = map (nth_error l) ks /\
    StronglySorted lt ks /\
    forall k, In k ks <-> exists x, nth_error l k = Some x /\ p x = true.
Proof.
  induction l as [|x l (ks & Hmap & Hsorted & Hin)].
  - exists []. repeat split; [constructor | intros [] | ].
    intros (x & H & _). now destruct k.
  - exists ((if p x then [0] else []) ++ map S ks). repeat split.
    + simpl. rewrite map_app, map_map. simpl.
      destruct (p x); simpl; now rewrite Hmap.
    + apply StronglySorted_shift in Hsorted.
      destruct (p x); simpl; [|assumption]. constructor; [assumption|].
      rewrite Forall_map, Forall_forall. intros; lia.
    + intros H. apply in_app_or in H as [H|H].
      * destruct (p x) eqn:E; [|contradiction]. destruct H as [<-|[]].
        now exists x.
      * apply in_map_iff in H as (k' & <- & H). apply Hin in H. exact H.
    + intros (y & Hy & Hp). apply in_or_app. destruct k as [|k]; simpl in Hy.
      * injection Hy as ->. rewrite Hp. left. now left.
      * right. apply in_map. apply Hin. now exists y.
Qed.

Section SearchFacts.
Variable h : Host.

Lemma searchLoop_from (ts : list Tab) (query : jsstring) (acc : list SearchResult) :
  forEach ts (fun tab results =>
    forEach (services tab) (fun service results =>
      if serviceMatches h query service
      then results ++ [{| service := service;
                          serverName := tab_name tab;
                          serverKey := key tab |}]
      else results) results) acc
  = acc ++ filter (fun e => serviceMatches h query (service e)) (entries ts).
Proof.
  revert acc; induction ts as [|tab ts IH]; intros acc.
  - simpl. now rewrite app_nil_r.
  - rewrite forEach_cons, IH.
    rewrite (forEach_push (serviceMatches h query)
               (fun s => {| service := s; serverName := tab_name tab;
                            serverKey := key tab |})).
    simpl. rewrite filter_app, <- app_assoc. do 2 f_equal.
    now rewrite filter_map_comm.
Qed.

Lemma searchLoop_filter (ts : list Tab) (query : jsstring) :
  searchLoop h ts query
  = filter (fun e => serviceMatches h query (service e)) (entries ts).
Proof. unfold searchLoop. now rewrite searchLoop_from. Qed.

Lemma serviceMatches_spec (q : jsstring) (s : Service) :
  serviceMatches h (toLowerCase h q) s = true <-> matchesAnyField h q s.
Proof.
  unfold serviceMatches, matchesAnyField, containsIgnoringCase.
  rewrite !orb_true_iff, !includes_spec. split.
  - intros [[[H|H]|H]|H]; [tauto | tauto | tauto |].
    destruct (alt_url s) as [a|]; [|discriminate].
    apply includes_spec in H. right; right; right. now exists a.
  - intros [H|[H|[H|(a & Ha & H)]]]; [tauto | tauto | tauto |].
    right. rewrite Ha. now apply includes_spec.
Qed.

(** C7. For every configuration and every query that is empty or consists
    only of whitespace, the search returns the empty sequence. *)
Theorem search_blank_query_empty (config : option Config) (q : jsstring) :
  blank q = true -> searchResults h q config = Normal [].
Proof.
  intros Hb. unfold searchResults.
  apply trim_nil in Hb. rewrite Hb. reflexivity.
Qed.

(** C1. For a configuration with tabs [ts] and a query that is not blank,
    the search returns a list [results] such that every element has one of
    name, description, url and alt_url containing the query with case
    ignored (an absent alt_url never counts), and [results] lists the
    entries of the configuration at exactly the positions whose service
    satisfies that predicate, each position once, in document order (tabs,
    then services within a tab). *)
Theorem search_sound_complete_ordered (ts : list Tab) (q : jsstring) :
  blank q = false ->
  exists results,
    searchResults h q (Some {| tabs := Some ts |}) = Normal results /\
    (forall r, In r results -> matchesAnyField h q (service r)) /\
    exists ks,
      map Some results = map (nth_error (entries ts)) ks /\
      StronglySorted lt ks /\
      forall k, In k ks <->
                exists e, nth_error (entries ts) k = Some e /\
                          matchesAnyField h q (service e).
Proof.
  intros Hb. exists (searchLoop h ts (toLowerCase h q)). split; [|split].
  - unfold searchResults. destruct (truthy (trim q)) eqn:E; [reflexivity|].
    apply trim_nil in E. congruence.
  - intros r. rewrite searchLoop_filter, filter_In.
    intros [_ H]. now apply serviceMatches_spec.
  - rewrite searchLoop_filter.
    destruct (filter_positions
                (fun e => serviceMatches h (toLowerCase h q) (service e))
                (entries ts)) as (ks & Hmap & Hsorted & Hin).
    exists ks. repeat split; try assumption.
    + intros H. apply Hin in H as (e & He & Hm). exists e.
      split; [assumption | now apply serviceMatches_spec].
    + intros (e & He & Hm). apply Hin. exists e.
      split; [assumption | now apply serviceMatches_spec].
Qed.

End SearchFacts.

(* ===================================================================== *)
(** * The configuration document *)
(* ===================================================================== *)

Section ConfigScriptFacts.
Variable h : Host.
Hypothesis host_plain : ~ In dollar (hostname h).

Lemma rewriteUrl_first (u : jsstring) :
  firstOccurrenceReplaced localhost (hostname h) u (rewriteUrl h u).
Proof.
  unfold rewriteUrl. destruct (includes u localhost) eqn:E.
  - now apply replace_first.
  - left. split; [|reflexivity]. intros H. apply includes_spec in H. congruence.
Qed.

Lemma rewriteService_rewritten (s : Service) :
  serviceRewritten h s (rewriteService h s).
Proof.
  unfold serviceRewritten. simpl. repeat split; try apply rewriteUrl_first.
  destruct (alt_url s) as [a|]; [|exact I].
  destruct (truthy a && includes a localhost) eqn:E.
  - now apply replace_first.
  - left. split; [|reflexivity]. intros H.
    assert (includes a localhost = true) as X by now apply includes_spec.
    rewrite X, andb_true_r in E. destruct a; [|discriminate].
    destruct H as ([|] & b & H); discriminate.
Qed.

Lemma rewriteTab_rewritten (t : Tab) : tabRewritten h t (rewriteTab h t).
Proof.
  unfold tabRewritten. simpl. repeat split; try apply rewriteUrl_first.
  induction (services t) as [|s l IH]; simpl; constructor;
    [apply rewriteService_rewritten | exact IH].
Qed.

Lemma rewriteTabs_rewritten (ts : list Tab) :
  Forall2 (tabRewritten h) ts (map (rewriteTab h) ts).
Proof.
  induction ts as [|t ts IH]; simpl; constructor;
    [apply rewriteTab_rewritten | exact IH].
Qed.

End ConfigScriptFacts.

(* ===================================================================== *)
(** * Handlers and steps *)
(* ===================================================================== *)

Lemma updatesOf_app (a b : list Effect) :
  updatesOf (a ++ b) = updatesOf a ++ updatesOf b.
Proof.
  induction a as [|e a IH]; simpl; [reflexivity|].
  destruct e; simpl; now rewrite IH.
Qed.

Lemma updatesOf_reactions (o : Origin) (r : option (Completion unit)) :
  updatesOf (reactions o r) = [].
Proof. destruct o, r as [[|]|]; reflexivity. Qed.


Lemma onload_absent (a : jsstring) :
  Eff.effects (script_onload a None)
  = [ConsoleError; Set_ (SetError (Some (Text configNotFound)));
     Reject (ErrorObject configNotFound); Set_ (SetLoading false)].
Proof. reflexivity. Qed.

Lemma onload_shaped (a : jsstring) (c : Config) (ts : list Tab) :
  tabs c = Some ts ->
  Eff.effects (script_onload a (Some c))
  = Set_ (SetConfig c)
    :: (if truthy a then []
        else match ts with
             | first :: _ => [Set_ (SetActiveTab (key first))]
             | [] => []
             end)
    ++ [Resolve; Set_ (SetLoading false)].
Proof.
  intros H. unfold script_onload, readTabs. rewrite H.
  destruct (truthy a); [reflexivity|]. now destruct ts.
Qed.

Lemma onload_selected (a : jsstring) (c : Config) :
  truthy a = true ->
  Eff.effects (script_onload a (Some c))
  = [Set_ (SetConfig c); Resolve; Set_ (SetLoading false)].
Proof. intros H. unfold script_onload. now rewrite H. Qed.

Lemma find_dropLoad (i j : nat) (w : World) :
  i <> j ->
  find (fun l => load_id l =? i) (dropLoad j w) = findLoad i w.
Proof.
  intros Hne. unfold dropLoad, findLoad.
  induction (pending w) as [|l ls IH]; simpl; [reflexivity|].
  destruct (Nat.eqb_spec (load_id l) j) as [Hj|Hj]; simpl.
  - destruct (Nat.eqb_spec (load_id l) i); [congruence | exact IH].
  - destruct (load_id l =? i); [reflexivity | exact IH].
Qed.

Section PageFacts.
Variable h : Host.

(** What one completed script adds to the log and does to the state. *)
Lemma step_ScriptLoad (w : World) (i : nat) (l : Load) (d : Document) :
  findLoad i w = Some l ->
  newEffects w (step h w (ScriptLoad i d))
  = Eff.effects (script_onload (closure_activeTab l)
                   (runDocument h d (dashboardConfig w)))
    ++ reactions (origin l)
         (settlement (Eff.effects (script_onload (closure_activeTab l)
                        (runDocument h d (dashboardConfig w))))) /\
  st (step h w (ScriptLoad i d))
  = fold_left applyUpdate
      (updatesOf (Eff.effects (script_onload (closure_activeTab l)
                    (runDocument h d (dashboardConfig w))))) (st w).
Proof.
  intros H. unfold step. rewrite H.
  unfold completeLoad, newEffects, perform. cbn [st log]. split.
  - now rewrite skipn_app, skipn_all, Nat.sub_diag.
  - unfold applyEffects.
    now rewrite updatesOf_app, updatesOf_reactions, app_nil_r.
Qed.

Lemma step_ScriptError (w : World) (i : nat) (l : Load) :
  findLoad i w = Some l ->
  newEffects w (step h w (ScriptError i))
  = Eff.effects script_onerror
    ++ reactions (origin l) (settlement (Eff.effects script_onerror)) /\
  st (step h w (ScriptError i))
  = fold_left applyUpdate (updatesOf (Eff.effects script_onerror)) (st w).
Proof.
  intros H. unfold step. rewrite H.
  unfold completeLoad, newEffects, perform. cbn [st log]. split.
  - now rewrite skipn_app, skipn_all, Nat.sub_diag.
  - unfold applyEffects.
    now rewrite updatesOf_app, updatesOf_reactions, app_nil_r.
Qed.

Lemma searchResults_shaped (q : jsstring) (c : option Config) :
  shaped c = true -> exists r, searchResults h q c = Normal r.
Proof.
  unfold searchResults, shaped. intros H.
  destruct (truthy (trim q)); simpl; [|now exists []].
  destruct c as [c|]; [|now exists []].
  destruct (tabs c) as [ts|]; [eauto | discriminate].
Qed.

Lemma activeTabData_shaped (s : State) :
  shaped (config s) = true -> exists t, activeTabData s = Normal t.
Proof.
  unfold activeTabData, shaped. intros H.
  destruct (config s) as [c|]; [|now exists None].
  destruct (tabs c) as [ts|]; [eauto | discriminate].
Qed.

(** With a readable configuration, a non-empty error text and loading
    over, a mounted component shows the error view. *)
Lemma render_error (s : State) (m : ErrorText) :
  shaped (config s) = true -> loading s = false -> mounted s = true ->
  errorShown (error s) = Some m ->
  render h s = Normal (ErrorView m).
Proof.
  intros Hs Hl Hm He. unfold render.
  destruct (searchResults_shaped (searchQuery s) _ Hs) as [r ->].
  destruct (activeTabData_shaped _ Hs) as [t ->]. simpl.
  now rewrite Hl, Hm, He.
Qed.

End PageFacts.

(* ===================================================================== *)
(** * Loading *)
(* ===================================================================== *)

Section LoadFacts.
Variable h : Host.

Lemma findLoad_requested (o : Origin) (w : World) :
  findLoad (issued w) (requestLoad o w)
  = Some {| load_id := issued w;
            closure_activeTab := activeTab (st w);
            origin := o |}.
Proof. unfold findLoad, requestLoad. simpl. now rewrite Nat.eqb_refl. Qed.

Lemma requestLoad_state (o : Origin) (w : World) :
  config (st (requestLoad o w)) = config (st w) /\
  activeTab (st (requestLoad o w)) = activeTab (st w) /\
  issued (requestLoad o w) = S (issued w).
Proof. unfold requestLoad. now destruct (scriptInDocument w). Qed.

(** Whatever ran before, a script that assigns a document leaves that
    document, rewritten if it can be, as the stored configuration. *)
Lemma config_after_assign (w : World) (i : nat) (l : Load) (c : Config) :
  findLoad i w = Some l ->
  config (st (step h w (ScriptLoad i (Assigns c))))
  = runDocument h (Assigns c) None.
Proof.
  intros Hl. destruct (step_ScriptLoad h w i l (Assigns c) Hl) as [_ ->].
  simpl runDocument. destruct (tabs c) as [ts|] eqn:Et.
  - rewrite (onload_shaped (closure_activeTab l)
               {| tabs := Some (map (rewriteTab h) ts) |} _ eq_refl).
    destruct (truthy (closure_activeTab l)); [reflexivity|].
    now destruct (map (rewriteTab h) ts).
  - unfold script_onload, readTabs. rewrite Et.
    now destruct (truthy (closure_activeTab l)).
Qed.

(** C2, as amended. After a load of a document with tabs [ts], served
    under a hostname without a dollar sign, the load has succeeded and the
    stored tabs are [ts] with, in every [mainUrl], [url] and [alt_url], the
    first occurrence of [localhost] replaced by the hostname and everything
    else, the scheme included, kept; an address without [localhost] is kept
    as it is. *)
Theorem load_rewrites_first_localhost
        (w : World) (i : nat) (l : Load) (ts : list Tab) :
  ~ In dollar (hostname h) ->
  findLoad i w = Some l ->
  exists ts',
    config (st (step h w (ScriptLoad i (Assigns {| tabs := Some ts |}))))
    = Some {| tabs := Some ts' |} /\
    settlement (newEffects w (step h w (ScriptLoad i (Assigns {| tabs := Some ts |}))))
    = Some (Normal tt) /\
    Forall2 (tabRewritten h) ts ts'.
Proof.
  intros Hd Hl. exists (map (rewriteTab h) ts). split; [|split].
  - now rewrite (config_after_assign w i l _ Hl).
  - destruct (step_ScriptLoad h w i l (Assigns {| tabs := Some ts |}) Hl) as [-> _].
    simpl runDocument.
    rewrite (onload_shaped (closure_activeTab l)
               {| tabs := Some (map (rewriteTab h) ts) |} _ eq_refl).
    destruct (truthy (closure_activeTab l)); [now destruct (origin l)|].
    destruct (map (rewriteTab h) ts); now destruct (origin l).
  - now apply rewriteTabs_rewritten.
Qed.





(** C9, as amended. When two loads are pending and the script of the
    newer one runs before the script of the older one, the stored
    configuration in the end is the document of the older load: the load
    that completes last wins and no completion is discarded. *)
Theorem last_completed_load_wins
        (w : World) (i j : nat) (li lj : Load) (cNew cOld : Config) :
  findLoad i w = Some li ->
  findLoad j w = Some lj ->
  i < j ->
  config (st (run h w [ScriptLoad j (Assigns cNew); ScriptLoad i (Assigns cOld)]))
  = runDocument h (Assigns cOld) None.
Proof.
  intros Hi Hj Hlt. unfold run. cbn [fold_left].
  assert (findLoad i (step h w (ScriptLoad j (Assigns cNew))) = Some li) as H.
  { unfold step. rewrite Hj. unfold findLoad at 1, completeLoad.
    cbn [pending]. replace (load_id lj) with j.
    - rewrite find_dropLoad by lia. exact Hi.
    - unfold findLoad in Hj. apply find_some in Hj as [_ Hj].
      apply Nat.eqb_eq in Hj. now symmetry. }
  exact (config_after_assign (step h w (ScriptLoad j (Assigns cNew))) i li cOld H).
Qed.

End LoadFacts.

(* ===================================================================== *)
(** * Selecting the active tab *)
(* ===================================================================== *)

Section TabFacts.
Variable h : Host.

Lemma find_none_of {A} (p : A -> bool) (l : list A) :
  (forall x, In x l -> p x = false) -> find p l = None.
Proof.
  induction l as [|x l IH]; simpl; [reflexivity|]. intros H.
  rewrite (H x) by now left. apply IH. intros y Hy. apply H. now right.
Qed.

(** A render fails only inside the search panel, on a card. *)
Lemma render_throws_in_cards (s : State) (ts : list Tab) (e : Exn) :
  config s = Some {| tabs := Some ts |} ->
  render h s = Throw e ->
  exists results,
    searchResults h (searchQuery s) (config s) = Normal results /\
    mapThrowing (renderCard h s) results = Throw e.
Proof.
  intros Hc. unfold render, activeTabData. rewrite Hc.
  destruct (searchResults h (searchQuery s) (Some {| tabs := Some ts |}))
    as [results|e'] eqn:Er.
  - simpl. intros H. exists results. split; [reflexivity|].
    destruct (loading s || negb (mounted s)); [discriminate|].
    destruct (errorShown (error s)); [discriminate|].
    destruct (isMobile s), (truthy (searchQuery s)); try discriminate;
      destruct (mapThrowing (renderCard h s) results); simpl in H;
      try discriminate; congruence.
  - exfalso. unfold searchResults in Er.
    destruct (negb (truthy (trim (searchQuery s)))); discriminate.
Qed.

Lemma render_idle (s : State) (ts : list Tab) :
  config s = Some {| tabs := Some ts |} ->
  loading s = false -> mounted s = true -> errorShown (error s) = None ->
  searchQuery s = [] ->
  exists v, render h s = Normal v /\
            isDashboard v = true /\
            searchPanelOf v = None /\
            Normal (tabContentOf v) = activeTabData s.
Proof.
  intros Hc Hl Hm He Hq. unfold render, activeTabData, searchResults.
  rewrite Hc, Hl, Hm, He, Hq. simpl.
  destruct (isMobile s); now eexists.
Qed.

Lemma render_searching (s : State) (ts : list Tab) (v : View) :
  config s = Some {| tabs := Some ts |} ->
  loading s = false -> mounted s = true -> errorShown (error s) = None ->
  searchQuery s <> [] ->
  render h s = Normal v ->
  isDashboard v = true /\
  (exists cards, searchPanelOf v = Some cards) /\
  tabContentOf v = None.
Proof.
  intros Hc Hl Hm He Hq. unfold render, activeTabData. rewrite Hc, Hl, Hm, He.
  destruct (searchResults h (searchQuery s) (Some {| tabs := Some ts |}))
    as [results|e]; [|discriminate].
  simpl. destruct (searchQuery s) as [|c q]; [congruence|]. simpl.
  destruct (isMobile s);
    (destruct (mapThrowing (renderCard h s) results) as [cards|e];
     [|discriminate]);
    simpl; intros [= <-]; simpl; eauto.
Qed.

Lemma render_blank_query (s : State) (ts : list Tab) :
  config s = Some {| tabs := Some ts |} ->
  loading s = false -> mounted s = true -> errorShown (error s) = None ->
  searchQuery s <> [] -> blank (searchQuery s) = true ->
  exists v, render h s = Normal v /\
            isDashboard v = true /\
            searchPanelOf v = Some [] /\
            tabContentOf v = None.
Proof.
  intros Hc Hl Hm He Hq Hb. apply trim_nil in Hb.
  unfold render, activeTabData, searchResults.
  rewrite Hb, Hc, Hl, Hm, He. simpl.
  destruct (searchQuery s) as [|c q]; [congruence|]. simpl.
  destruct (isMobile s); now eexists.
Qed.

End TabFacts.

Section SelectionFacts.
Variable h : Host.

(** C6. A load requested with no tab selected, of a document whose tabs
    start with [t], makes [key t] the active tab; a reload requested while
    a tab is selected leaves the active tab key as it was, whatever the
    script leaves; and when no tab of the stored configuration has the
    active key, no tab is active, no tab content is shown, the render
    succeeds while the search box is empty, and a render can only fail
    inside a card of the search panel. *)
Theorem active_tab_selection
        (w : World) (i : nat) (l : Load) (t : Tab) (ts : list Tab)
        (d : Document) (s : State) (ts' : list Tab) :
  (findLoad i w = Some l -> closure_activeTab l = [] ->
   activeTab (st (step h w (ScriptLoad i (Assigns {| tabs := Some (t :: ts) |}))))
   = key t) /\
  (activeTab (st w) <> [] ->
   activeTab (st (run h w [ClickReload; ScriptLoad (issued w) d]))
   = activeTab (st w)) /\
  (config s = Some {| tabs := Some ts' |} ->
   (forall t', In t' ts' -> key t' <> activeTab s) ->
   activeTabData s = Normal None /\
   (forall v, render h s = Normal v -> tabContentOf v = None) /\
   (searchQuery s = [] -> exists v, render h s = Normal v) /\
   (forall e, render h s = Throw e ->
              exists results,
                searchResults h (searchQuery s) (config s) = Normal results /\
                mapThrowing (renderCard h s) results = Throw e)).
Proof.
  split; [|split].
  - intros Hl Ha.
    destruct (step_ScriptLoad h w i l (Assigns {| tabs := Some (t :: ts) |}) Hl)
      as [_ ->].
    simpl runDocument. erewrite onload_shaped by reflexivity.
    rewrite Ha. reflexivity.
  - intros Ha. unfold run. cbn [fold_left].
    change (step h w ClickReload) with (requestLoad FromReload w).
    destruct (requestLoad_state FromReload w) as (_ & Hact & _).
    destruct (step_ScriptLoad h (requestLoad FromReload w) (issued w) _ d
                (findLoad_requested FromReload w)) as [_ ->].
    cbn [closure_activeTab].
    assert (truthy (activeTab (st w)) = true) as Ht
        by (destruct (activeTab (st w)); [congruence | reflexivity]).
    destruct (runDocument h d (dashboardConfig (requestLoad FromReload w))).
    + rewrite (onload_selected _ _ Ht). exact Hact.
    + rewrite onload_absent. exact Hact.
  - intros Hc Hk.
    assert (activeTabData s = Normal None) as Hnone.
    { unfold activeTabData. rewrite Hc. simpl. f_equal. apply find_none_of.
      intros x Hx. destruct (streq (key x) (activeTab s)) eqn:E; [|reflexivity].
      apply streq_spec in E. now apply Hk in Hx. }
    split; [exact Hnone | split; [|split]].
    + unfold render. rewrite Hnone, Hc.
      destruct (searchResults h (searchQuery s) (Some {| tabs := Some ts' |}))
        as [results|e]; [|discriminate].
      simpl. destruct (loading s || negb (mounted s)); [now intros v [= <-]|].
      destruct (errorShown (error s)); [now intros v [= <-]|].
      destruct (isMobile s), (truthy (searchQuery s));
        try (now intros v [= <-]);
        (destruct (mapThrowing (renderCard h s) results); [|discriminate]);
        now intros v [= <-].
    + intros Hq. unfold render, searchResults. rewrite Hnone, Hc, Hq. simpl.
      destruct (loading s || negb (mounted s)); [now eexists|].
      destruct (errorShown (error s)); [now eexists|].
      destruct (isMobile s); now eexists.
    + intros e. now apply render_throws_in_cards with (ts := ts').
Qed.

(** C10. A load of a document whose [tabs] is the empty sequence resolves
    and stores that document; the active tab key and the error stay as they
    were (so the key stays empty when it was), and a mounted component
    without an error shows the dashboard with no tab content. *)
Theorem empty_tabs_load_is_ready (w : World) (i : nat) (l : Load) :
  findLoad i w = Some l ->
  settlement (newEffects w (step h w (ScriptLoad i (Assigns emptyConfig))))
  = Some (Normal tt) /\
  config (st (step h w (ScriptLoad i (Assigns emptyConfig)))) = Some emptyConfig /\
  error (st (step h w (ScriptLoad i (Assigns emptyConfig)))) = error (st w) /\
  activeTab (st (step h w (ScriptLoad i (Assigns emptyConfig)))) = activeTab (st w) /\
  (mounted (st w) = true -> errorShown (error (st w)) = None ->
   exists v,
     render h (st (step h w (ScriptLoad i (Assigns emptyConfig)))) = Normal v /\
     isDashboard v = true /\ tabContentOf v = None).
Proof.
  intros Hl.
  destruct (step_ScriptLoad h w i l (Assigns emptyConfig) Hl) as [-> ->].
  simpl runDocument.
  rewrite (onload_shaped (closure_activeTab l) {| tabs := Some [] |} [] eq_refl).
  assert ((if truthy (closure_activeTab l) then @nil Effect else []) = []) as ->
      by now destruct (truthy (closure_activeTab l)).
  split; [now destruct (origin l) | repeat split].
  intros Hm He. unfold render, activeTabData, searchResults. simpl.
  rewrite Hm, He.
  destruct (truthy (trim (searchQuery (st w)))); simpl;
    destruct (isMobile (st w)), (truthy (searchQuery (st w))); simpl;
    now eexists.
Qed.

(** C4, as amended. In a mounted component that has loaded a
    configuration and shows no error: with an empty query there is no
    search panel and the content is that of the active tab; with a query
    that is not the empty string a render that succeeds shows the search
    panel and no tab content; and a non-empty query of whitespace only
    shows the search panel without cards and no tab content. *)
Theorem search_mode_follows_raw_query (s : State) (ts : list Tab) :
  config s = Some {| tabs := Some ts |} ->
  loading s = false -> mounted s = true -> errorShown (error s) = None ->
  (searchQuery s = [] ->
   exists v, render h s = Normal v /\ isDashboard v = true /\
             searchPanelOf v = None /\
             Normal (tabContentOf v) = activeTabData s) /\
  (searchQuery s <> [] ->
   forall v, render h s = Normal v ->
             isDashboard v = true /\
             (exists cards, searchPanelOf v = Some cards) /\
             tabContentOf v = None) /\
  (searchQuery s <> [] -> blank (searchQuery s) = true ->
   exists v, render h s = Normal v /\ isDashboard v = true /\
             searchPanelOf v = Some [] /\ tabContentOf v = None).
Proof.
  intros Hc Hl Hm He. split; [|split].
  - now apply render_idle with (ts := ts).
  - intros Hq v. now apply render_searching with (ts := ts).
  - now apply render_blank_query with (ts := ts).
Qed.

End SelectionFacts.

(* ===================================================================== *)
(** * Highlighting *)
(* ===================================================================== *)

(** A query the scanner refuses once it is wrapped in a group makes
    [highlightText] throw, whatever the text and the engine. *)
Lemma highlightText_rejected (h : Host) (text query : jsstring) :
  blank query = false ->
  patternRejected (js "(" ++ query ++ js ")") = true ->
  highlightText h text query = Throw SyntaxError.
Proof.
  intros Hb Hr. unfold highlightText, newRegExp.
  destruct (truthy (trim query)) eqn:E.
  - cbn [negb]. now rewrite Hr.
  - apply trim_nil in E. congruence.
Qed.

(** C5 (the code diverges from the claim). For the query made of an
    opening parenthesis [highlightText] throws a [SyntaxError] on every
    text and with every engine, and with that query the render of a page
    that has loaded the shipped MinIO service throws it too. *)
Theorem highlightText_throws_on_parenthesis :
  (forall h text, highlightText h text (js "(") = Throw SyntaxError) /\
  render demoHost (readyState [mediaTab] "media" "(" false) = Throw SyntaxError.
Proof.
  split.
  - intros h text. now apply highlightText_rejected.
  - reflexivity.
Qed.

(* ===================================================================== *)
(** * Clipboard *)
(* ===================================================================== *)

Section ClipboardFacts.
Variable h : Host.

(** C8, as amended. When the secure clipboard write is unavailable or
    refused and the selection-based copy fails too, [copyToClipboard]
    completes normally (its promise is fulfilled, as on success, and
    nothing is thrown to the caller), shows the "Copy Failed" toast and
    nothing else, calls no state setter and starts no timer, so the
    component state is what it was. *)
Theorem copy_failure_reported (d : Device) (s : State) (url label : jsstring) :
  secureWriteFails d url ->
  fallbackFails d ->
  Eff.completion (copyToClipboard h d s url label) = Normal tt /\
  toastsOf (Eff.effects (copyToClipboard h d s url label)) = [CopyFailedToast] /\
  updatesOf (Eff.effects (copyToClipboard h d s url label)) = [] /\
  (forall ms u, ~ In (SetTimeout ms u) (Eff.effects (copyToClipboard h d s url label))) /\
  applyEffects s (Eff.effects (copyToClipboard h d s url label)) = s.
Proof.
  intros Hw Hf. unfold applyEffects.
  assert (Eff.completion (copyToClipboard h d s url label) = Normal tt /\
          toastsOf (Eff.effects (copyToClipboard h d s url label)) = [CopyFailedToast] /\
          updatesOf (Eff.effects (copyToClipboard h d s url label)) = [] /\
          (forall ms u, ~ In (SetTimeout ms u)
                             (Eff.effects (copyToClipboard h d s url label))))
    as (H1 & H2 & H3 & H4);
    [|rewrite H3; repeat split; assumption].
  unfold copyToClipboard, triggerHapticForCopy.
  destruct (clipboardPresent d && isSecureContext d) eqn:Ec.
  - destruct Hw as [Hw|[e Hw]]; [congruence|]. rewrite Hw.
    destruct (canVibrate d), (isMobile s); simpl;
      try destruct (includes (toLowerCase h (userAgent d)) (js "ios")
                    || includes (toLowerCase h (userAgent d)) (js "iphone")
                    || includes (toLowerCase h (userAgent d)) (js "ipad"));
      simpl; repeat split; intros ms u; simpl; intuition discriminate.
  - unfold fallbackFails in Hf.
    destruct (execCommandCopy d) as [[|]|e]; [congruence | |];
      destruct (canVibrate d), (isMobile s); simpl;
      try destruct (includes (toLowerCase h (userAgent d)) (js "ios")
                    || includes (toLowerCase h (userAgent d)) (js "iphone")
                    || includes (toLowerCase h (userAgent d)) (js "ipad"));
      simpl; repeat split; intros ms u; simpl; intuition discriminate.
Qed.

End ClipboardFacts.

(* ===================================================================== *)
(** * The claims on concrete pages *)
(* ===================================================================== *)

Lemma demoHost_plain : ~ In dollar (hostname demoHost).
Proof. simpl. intuition discriminate. Qed.

(** The scenario of the specification: searching the two tabs for [git]
    gives one result, the service Gitea of tab [b]. *)
Example search_git_finds_gitea :
  searchResults demoHost (js "git") (Some {| tabs := Some twoTabs |})
  = Normal [{| service := gitea; serverName := js "b"; serverKey := js "b" |}].
Proof. reflexivity. Qed.

(** The hostname example of the specification. *)
Example rewrite_localhost_8080 :
  rewriteUrl demoHost (js "http://localhost:8080") = js "http://example.org:8080" /\
  rewriteUrl demoHost (js "http://192.168.0.100:4000") = js "http://192.168.0.100:4000".
Proof. split; reflexivity. Qed.

(** C1 on the two-tab scenario with the query [git]. *)
Lemma search_sound_complete_ordered_witness :
  blank (js "git") = false /\
  exists results,
    searchResults demoHost (js "git") (Some {| tabs := Some twoTabs |})
    = Normal results /\
    (forall r, In r results -> matchesAnyField demoHost (js "git") (service r)) /\
    exists ks,
      map Some results = map (nth_error (entries twoTabs)) ks /\
      StronglySorted lt ks /\
      forall k, In k ks <->
                exists e, nth_error (entries twoTabs) k = Some e /\
                          matchesAnyField demoHost (js "git") (service e).
Proof.
  split; [reflexivity|].
  apply (search_sound_complete_ordered demoHost twoTabs (js "git")).
  reflexivity.
Defined.

(** C7 on the two-tab scenario with a query of two spaces. *)
Lemma search_blank_query_empty_witness :
  blank (js "  ") = true /\
  searchResults demoHost (js "  ") (Some {| tabs := Some twoTabs |}) = Normal [].
Proof.
  split; [reflexivity|].
  apply (search_blank_query_empty demoHost (Some {| tabs := Some twoTabs |}) (js "  ")).
  reflexivity.
Defined.

(** C2 fails as stated: of two occurrences of [localhost] in a [mainUrl]
    only the first is replaced by the load, where replacing every
    occurrence gives another address; and a hostname with [$&] in it is
    not what replaces the occurrence. *)
Lemma localhost_later_occurrence_kept :
  config (st (run demoHost initialWorld
                  [Mount 1024; ScriptLoad 0 (Assigns {| tabs := Some [localTab] |})]))
  = Some {| tabs := Some [mkTab "local" "http://example.org:8080/?next=localhost" []] |} /\
  replaceEveryOccurrence localhost (hostname demoHost) (mainUrl localTab) 0
  = js "http://example.org:8080/?next=example.org" /\
  config (st (run dollarHost initialWorld
                  [Mount 1024; ScriptLoad 0 (Assigns {| tabs := Some [rootTab] |})]))
  = Some {| tabs := Some [mkTab "root" "http://alocalhostb/" []] |}.
Proof. repeat split. Qed.

(** C2, as amended, on the first load of the tab that names [localhost]
    twice. *)
Lemma load_rewrites_first_localhost_witness :
  ~ In dollar (hostname demoHost) /\
  findLoad 0 mountedWorld
  = Some {| load_id := 0; closure_activeTab := []; origin := FromMount |} /\
  exists ts',
    config (st (step demoHost mountedWorld
                     (ScriptLoad 0 (Assigns {| tabs := Some [localTab] |}))))
    = Some {| tabs := Some ts' |} /\
    settlement (newEffects mountedWorld
                  (step demoHost mountedWorld
                        (ScriptLoad 0 (Assigns {| tabs := Some [localTab] |}))))
    = Some (Normal tt) /\
    Forall2 (tabRewritten demoHost) [localTab] ts'.
Proof.
  split; [exact demoHost_plain | split; [reflexivity|]].
  apply (load_rewrites_first_localhost demoHost mountedWorld 0
           {| load_id := 0; closure_activeTab := []; origin := FromMount |}
           [localTab]).
  - exact demoHost_plain.
  - reflexivity.
Defined.



(** C4 fails as stated: with a query of one space the component is in
    search mode in both layouts, showing the search panel without cards and
    no tab content although a tab is active. *)
Lemma whitespace_query_enters_search_mode :
  blank (js " ") = true /\
  activeTabData (readyState twoTabs "a" " " false)
  = Normal (Some (mkTab "a" "http://x" [plex])) /\
  render demoHost (readyState twoTabs "a" " " false)
  = Normal (DesktopView true (Some []) None None) /\
  exists v, render demoHost (readyState twoTabs "a" " " true) = Normal v /\
            searchPanelOf v = Some [] /\ tabContentOf v = None.
Proof. repeat split. eexists. repeat split. Qed.

(** C4, as amended, on the two-tab scenario with an empty query. *)
Lemma search_mode_follows_raw_query_witness :
  exists v, render demoHost (readyState twoTabs "a" "" false) = Normal v /\
            isDashboard v = true /\ searchPanelOf v = None /\
            Normal (tabContentOf v) = activeTabData (readyState twoTabs "a" "" false).
Proof.
  destruct (search_mode_follows_raw_query demoHost
              (readyState twoTabs "a" "" false) twoTabs
              eq_refl eq_refl eq_refl eq_refl) as (H & _ & _).
  exact (H eq_refl).
Defined.

(** C6 on the first load of the two-tab scenario, on a reload of it, and
    on a page whose active key names no tab. *)
Lemma active_tab_selection_witness :
  activeTab (st (step demoHost mountedWorld
                      (ScriptLoad 0 (Assigns {| tabs := Some twoTabs |}))))
  = js "a" /\
  activeTab (st (run demoHost loadedWorld
                     [ClickReload; ScriptLoad 1 (Assigns newerConfig)]))
  = js "a" /\
  activeTabData (readyState twoTabs "gone" "" false) = Normal None.
Proof.
  split; [|split].
  - apply (active_tab_selection demoHost mountedWorld 0
             {| load_id := 0; closure_activeTab := []; origin := FromMount |}
             (mkTab "a" "http://x" [plex]) [mkTab "b" "http://y" [gitea]]
             Silent initialState []); reflexivity.
  - apply (active_tab_selection demoHost loadedWorld 0
             {| load_id := 0; closure_activeTab := []; origin := FromMount |}
             (mkTab "a" "http://x" [plex]) []
             (Assigns newerConfig) initialState []). discriminate.
  - apply (active_tab_selection demoHost mountedWorld 0
             {| load_id := 0; closure_activeTab := []; origin := FromMount |}
             (mkTab "a" "http://x" [plex]) []
             Silent (readyState twoTabs "gone" "" false) twoTabs).
    + reflexivity.
    + simpl. intros t' [<-|[<-|[]]]; discriminate.
Defined.

(** C8 fails as stated: on a device where both ways of copying fail the
    call completes exactly as a call that copied, so the caller is told
    nothing, and what it does is the same whatever the URL: the toast
    names no URL and nothing else shows one. *)
Lemma copy_failure_not_returned :
  secureWriteFails lockedDevice (js "http://x:32400") /\
  fallbackFails lockedDevice /\
  Eff.completion (copyToClipboard demoHost lockedDevice desktopState
                    (js "http://x:32400") (js "Plex"))
  = Eff.completion (copyToClipboard demoHost grantingDevice desktopState
                      (js "http://x:32400") (js "Plex")) /\
  Eff.effects (copyToClipboard demoHost lockedDevice desktopState
                 (js "http://x:32400") (js "Plex"))
  = [Vibrate 50; AppendNode; RemoveNode; ConsoleError; Toast CopyFailedToast] /\
  Eff.effects (copyToClipboard demoHost lockedDevice desktopState
                 (js "http://y:3000") (js "Plex"))
  = Eff.effects (copyToClipboard demoHost lockedDevice desktopState
                   (js "http://x:32400") (js "Plex")).
Proof.
  split; [left; reflexivity | split; [discriminate | repeat split]].
Qed.

(** C8, as amended, on a phone without a usable clipboard whose copy
    command copies nothing. *)
Lemma copy_failure_reported_witness :
  secureWriteFails lockedDevice (js "http://x:32400") /\
  fallbackFails lockedDevice /\
  Eff.completion (copyToClipboard demoHost lockedDevice
                    (readyState twoTabs "a" "" true) (js "http://x:32400") (js "Plex"))
  = Normal tt /\
  toastsOf (Eff.effects (copyToClipboard demoHost lockedDevice
                           (readyState twoTabs "a" "" true) (js "http://x:32400") (js "Plex")))
  = [CopyFailedToast].
Proof.
  assert (secureWriteFails lockedDevice (js "http://x:32400")) as Hw
      by (left; reflexivity).
  assert (fallbackFails lockedDevice) as Hf by (unfold fallbackFails; discriminate).
  split; [exact Hw | split; [exact Hf|]].
  destruct (copy_failure_reported demoHost lockedDevice
              (readyState twoTabs "a" "" true) (js "http://x:32400") (js "Plex")
              Hw Hf) as (H1 & H2 & _).
  split; [exact H1 | exact H2].
Defined.

(** C9 fails as stated: the mount effects run twice, the first load
    brings the two-tab document and a reload is requested while the second
    load is pending; the reload, the newer request, completes first and
    the older load after it. The page can take every step of this, and
    the stored configuration is then the older load's document, not the
    newer one's. *)
Lemma stale_load_overwrites_newer :
  playable demoHost initialWorld
           (overlapTrace ++ [ScriptLoad 2 (Assigns newerConfig);
                             ScriptLoad 1 (Assigns {| tabs := Some twoTabs |})])
  = true /\
  config (st (run demoHost overlapWorld
                  [ScriptLoad 2 (Assigns newerConfig);
                   ScriptLoad 1 (Assigns {| tabs := Some twoTabs |})]))
  = Some {| tabs := Some twoTabs |} /\
  config (st (run demoHost overlapWorld
                  [ScriptLoad 2 (Assigns newerConfig);
                   ScriptLoad 1 (Assigns {| tabs := Some twoTabs |})]))
  <> runDocument demoHost (Assigns newerConfig) None.
Proof. split; [reflexivity | split; [reflexivity | discriminate]]. Qed.

(** C9, as amended, on the page whose mount effects ran twice and whose
    reload was requested while the second load was pending. *)
Lemma last_completed_load_wins_witness :
  playable demoHost initialWorld overlapTrace = true /\
  findLoad 1 overlapWorld
  = Some {| load_id := 1; closure_activeTab := []; origin := FromMount |} /\
  findLoad 2 overlapWorld
  = Some {| load_id := 2; closure_activeTab := js "a"; origin := FromReload |} /\
  config (st (run demoHost overlapWorld
                  [ScriptLoad 2 (Assigns newerConfig);
                   ScriptLoad 1 (Assigns {| tabs := Some twoTabs |})]))
  = runDocument demoHost (Assigns {| tabs := Some twoTabs |}) None.
Proof.
  split; [reflexivity | split; [reflexivity | split; [reflexivity|]]].
  apply (last_completed_load_wins demoHost overlapWorld 1 2
           {| load_id := 1; closure_activeTab := []; origin := FromMount |}
           {| load_id := 2; closure_activeTab := js "a"; origin := FromReload |}
           newerConfig {| tabs := Some twoTabs |});
    [reflexivity | reflexivity | lia].
Defined.

(** C10 on the first load of a page. *)
Lemma empty_tabs_load_is_ready_witness :
  findLoad 0 mountedWorld
  = Some {| load_id := 0; closure_activeTab := []; origin := FromMount |} /\
  activeTab (st (step demoHost mountedWorld (ScriptLoad 0 (Assigns emptyConfig)))) = [] /\
  exists v,
    render demoHost (st (step demoHost mountedWorld (ScriptLoad 0 (Assigns emptyConfig))))
    = Normal v /\
    isDashboard v = true /\ tabContentOf v = None.
Proof.
  split; [reflexivity|].
  destruct (empty_tabs_load_is_ready demoHost mountedWorld 0
              {| load_id := 0; closure_activeTab := []; origin := FromMount |}
              eq_refl) as (_ & _ & _ & Ha & Hr).
  split; [exact Ha | exact (Hr eq_refl eq_refl)].
Defined.

(* ===================================================================== *)
(** * More on search *)
(* ===================================================================== *)

Lemma occursIn_trans (a b c : jsstring) :
  occursIn a b -> occursIn b c -> occursIn a c.
Proof.
  intros (x & y & ->) (u & v & ->). exists (u ++ x), (y ++ v).
  now rewrite <- !app_assoc.
Qed.

Lemma filter_narrow {A} (p q : A -> bool) (l : list A) :
  (forall x, q x = true -> p x = true) ->
  filter q l = filter q (filter p l).
Proof.
  intros H. induction l as [|x l IH]; simpl; [reflexivity|].
  destruct (q x) eqn:Eq.
  - rewrite (H x Eq). simpl. now rewrite Eq, IH.
  - destruct (p x); simpl; [now rewrite Eq|]; exact IH.
Qed.

Lemma filter_none {A} (l : list A) : filter (fun _ => false) l = [].
Proof. induction l; [reflexivity | assumption]. Qed.

Lemma entries_length (ts : list Tab) :
  List.length (entries ts) = List.length (flat_map services ts).
Proof.
  induction ts as [|t ts IH]; simpl; [reflexivity|].
  now rewrite !length_app, length_map, IH.
Qed.

Lemma entries_In (ts : list Tab) (r : SearchResult) :
  In r (entries ts) ->
  exists tab, In tab ts /\ In (service r) (services tab) /\
              serverName r = tab_name tab /\ serverKey r = key tab.
Proof.
  unfold entries. rewrite in_flat_map. intros (tab & Htab & Hr).
  apply in_map_iff in Hr as (s & <- & Hs). now exists tab.
Qed.

Section MoreSearchFacts.
Variable h : Host.

Lemma serviceMatches_narrow (q1 q2 : jsstring) (s : Service) :
  occursIn q1 q2 ->
  serviceMatches h q2 s = true -> serviceMatches h q1 s = true.
Proof.
  intros Hq. unfold serviceMatches. rewrite !orb_true_iff.
  assert (forall f, includes f q2 = true -> includes f q1 = true) as Hi.
  { intros f Hf. apply includes_spec. apply includes_spec in Hf.
    now apply occursIn_trans with (b := q2). }
  intros [[[H|H]|H]|H]; auto.
  right. destruct (alt_url s); [auto | discriminate].
Qed.

(** X1. When a query that is not blank occurs, with case ignored, in a
    second query, the results of the second query are results of the
    first, in the same order: typing more of a query only removes
    results. *)
Theorem search_narrows (ts : list Tab) (q1 q2 : jsstring) :
  blank q1 = false ->
  occursIn (toLowerCase h q1) (toLowerCase h q2) ->
  exists r1 r2 keep,
    searchResults h q1 (Some {| tabs := Some ts |}) = Normal r1 /\
    searchResults h q2 (Some {| tabs := Some ts |}) = Normal r2 /\
    r2 = filter keep r1.
Proof.
  intros Hb Hq. unfold searchResults.
  destruct (truthy (trim q1)) eqn:E1;
    [|apply trim_nil in E1; congruence].
  exists (searchLoop h ts (toLowerCase h q1)).
  destruct (truthy (trim q2)); simpl.
  - exists (searchLoop h ts (toLowerCase h q2)),
           (fun r => serviceMatches h (toLowerCase h q2) (service r)).
    repeat split. rewrite !searchLoop_filter. apply filter_narrow.
    intros r. now apply serviceMatches_narrow.
  - exists [], (fun _ => false). repeat split. now rewrite filter_none.
Qed.

(** X2. Whatever the query, every search result is a service of a tab of
    the configuration, carrying that tab's name and key, and there are at
    most as many results as the configuration has services. *)
Theorem search_results_from_configuration (ts : list Tab) (q : jsstring) :
  exists results,
    searchResults h q (Some {| tabs := Some ts |}) = Normal results /\
    (forall r, In r results ->
               exists tab, In tab ts /\ In (service r) (services tab) /\
                           serverName r = tab_name tab /\
                           serverKey r = key tab) /\
    List.length results <= List.length (flat_map services ts).
Proof.
  unfold searchResults. destruct (truthy (trim q)); simpl.
  - exists (searchLoop h ts (toLowerCase h q)). rewrite searchLoop_filter.
    split; [reflexivity | split].
    + intros r Hr. apply filter_In in Hr as [Hr _]. now apply entries_In.
    + rewrite <- entries_length. apply filter_length_le.
  - exists []. split; [reflexivity | split; [intros r [] | simpl; lia]].
Qed.

End MoreSearchFacts.

(* ===================================================================== *)
(** * More on rendering *)
(* ===================================================================== *)

Lemma mapThrowing_Forall2 {A B} (f : A -> Completion B) (xs : list A) (ys : list B) :
  mapThrowing f xs = Normal ys ->
  Forall2 (fun x y => f x = Normal y) xs ys.
Proof.
  revert ys; induction xs as [|x xs IH]; simpl; intros ys.
  - intros [= <-]. constructor.
  - destruct (f x) as [y|e] eqn:Ex; [|discriminate]. simpl.
    destruct (mapThrowing f xs) as [ys'|e]; [|discriminate]. simpl.
    intros [= <-]. constructor; [assumption | now apply IH].
Qed.

Lemma streq_sym (a b : jsstring) : streq a b = streq b a.
Proof.
  revert b; induction a as [|c a IH]; intros [|d b]; simpl; try reflexivity.
  now rewrite IH, N.eqb_sym.
Qed.

Lemma getServiceIcon_truthy (s : Service) : truthy (getServiceIcon s) = true.
Proof.
  unfold getServiceIcon. destruct (icon s) as [i|]; [|reflexivity].
  destruct (truthy i) eqn:E; [exact E | reflexivity].
Qed.

Lemma key_injective (ts : list Tab) (a b : Tab) :
  NoDup (map key ts) -> In a ts -> In b ts -> key a = key b -> a = b.
Proof.
  induction ts as [|t ts IH]; simpl; [intros _ []|].
  intros Hn [<-|Hina] [<-|Hinb] Hk; try reflexivity.
  - inversion Hn as [|? ? Hnot _]. exfalso. apply Hnot.
    rewrite Hk. now apply in_map.
  - inversion Hn as [|? ? Hnot _]. exfalso. apply Hnot.
    rewrite <- Hk. now apply in_map.
  - inversion Hn. now apply IH.
Qed.

Section MoreRenderFacts.
Variable h : Host.

Lemma renderCard_fields (s : State) (r : SearchResult) (c : Card) :
  renderCard h s r = Normal c ->
  card_server c = serverName r /\
  card_icon c = getServiceIcon (service r) /\
  card_url_copied c = sameOption (copiedUrl s) (Some (url (service r))) /\
  (match card_alt c with Some _ => true | None => false end)
  = hasAltUrl (service r).
Proof.
  unfold renderCard, hasAltUrl.
  destruct (highlightText h (name (service r)) (searchQuery s)) as [pn|];
    [|discriminate].
  destruct (highlightText h (description (service r)) (searchQuery s)) as [pd|];
    [|discriminate].
  destruct (highlightText h (url (service r)) (searchQuery s)) as [pu|];
    [|discriminate].
  simpl. destruct (alt_url (service r)) as [alt|]; simpl.
  - destruct (truthy alt); simpl.
    + destruct (highlightText h alt (searchQuery s)) as [pa|]; [|discriminate].
      simpl. now intros [= <-].
    + now intros [= <-].
  - now intros [= <-].
Qed.

(** The search panel of a render that succeeds holds the cards of the
    results. *)
Lemma render_search_cards (s : State) (ts : list Tab) (v : View) :
  config s = Some {| tabs := Some ts |} ->
  loading s = false -> mounted s = true -> errorShown (error s) = None ->
  searchQuery s <> [] ->
  render h s = Normal v ->
  exists results cards,
    searchResults h (searchQuery s) (config s) = Normal results /\
    mapThrowing (renderCard h s) results = Normal cards /\
    searchPanelOf v = Some cards /\
    tabListOf v = if isMobile s then Some (tabButtons s ts) else None.
Proof.
  intros Hc Hl Hm He Hq. unfold render, activeTabData. rewrite Hc, Hl, Hm, He.
  destruct (searchResults h (searchQuery s) (Some {| tabs := Some ts |}))
    as [results|e]; [|discriminate].
  simpl. destruct (searchQuery s) as [|c q]; [congruence|]. simpl.
  destruct (isMobile s);
    (destruct (mapThrowing (renderCard h s) results) as [cards|e] eqn:Em;
     [|discriminate]);
    simpl; intros [= <-]; exists results, cards; now rewrite Em.
Qed.

(** X3. In a ready dashboard with a non-empty query, a render that
    succeeds shows one card per search result, in the order of the
    results; each card carries the tab name of its result, a non-empty
    icon (the service's own, or the fallback glyph), the copied mark
    exactly when the copied URL is the service's url, and an alternate
    address block exactly when the service has a non-empty alt_url. *)
Theorem search_panel_shows_results (s : State) (ts : list Tab) (v : View) :
  config s = Some {| tabs := Some ts |} ->
  loading s = false -> mounted s = true -> errorShown (error s) = None ->
  searchQuery s <> [] ->
  render h s = Normal v ->
  exists results cards,
    searchResults h (searchQuery s) (config s) = Normal results /\
    searchPanelOf v = Some cards /\
    Forall2 (fun r c =>
               card_server c = serverName r /\
               card_icon c = getServiceIcon (service r) /\
               truthy (card_icon c) = true /\
               card_url_copied c
               = sameOption (copiedUrl s) (Some (url (service r))) /\
               (match card_alt c with Some _ => true | None => false end)
               = hasAltUrl (service r))
            results cards.
Proof.
  intros Hc Hl Hm He Hq Hr.
  destruct (render_search_cards s ts v Hc Hl Hm He Hq Hr)
    as (results & cards & Hs & Hcards & Hp & _).
  exists results, cards. split; [exact Hs | split; [exact Hp|]].
  apply mapThrowing_Forall2 in Hcards. clear Hs Hp.
  induction Hcards as [|r c rs cs Hrc _ IH]; [constructor|].
  constructor; [|exact IH].
  destruct (renderCard_fields s r c Hrc) as (H1 & H2 & H3 & H4).
  repeat split; try assumption. rewrite H2. apply getServiceIcon_truthy.
Qed.

(** X4. In a ready dashboard a render that succeeds offers the tab
    buttons of all tabs, in order, in every state of the mobile layout,
    and in the desktop layout exactly when the query is empty; a button is
    drawn active exactly when its tab's key is the active key. *)
Theorem tab_buttons_offered (s : State) (ts : list Tab) (v : View) :
  config s = Some {| tabs := Some ts |} ->
  loading s = false -> mounted s = true -> errorShown (error s) = None ->
  render h s = Normal v ->
  tabListOf v
  = (if isMobile s || negb (truthy (searchQuery s))
     then Some (tabButtons s ts) else None) /\
  map fst (tabButtons s ts) = ts /\
  (forall t b, In (t, b) (tabButtons s ts) ->
               (b = true <-> key t = activeTab s)).
Proof.
  intros Hc Hl Hm He Hr. split; [|split].
  - destruct (searchQuery s) as [|c q] eqn:Eq.
    + revert Hr. unfold render, activeTabData, searchResults.
      rewrite Hc, Hl, Hm, He, Eq. simpl. rewrite orb_true_r.
      destruct (isMobile s); now intros [= <-].
    + assert (searchQuery s <> []) as Hq by congruence.
      destruct (render_search_cards s ts v Hc Hl Hm He Hq Hr)
        as (_ & _ & _ & _ & _ & ->).
      simpl. now destruct (isMobile s).
  - unfold tabButtons. rewrite map_map. simpl. apply map_id.
  - intros t b Hin. unfold tabButtons in Hin.
    apply in_map_iff in Hin as (t' & [= <- <-] & _).
    rewrite streq_spec. split; congruence.
Qed.

End MoreRenderFacts.

(* ===================================================================== *)
(** * More on tabs *)
(* ===================================================================== *)

Lemma no_active_button (s : State) (ts : list Tab) :
  ~ In (activeTab s) (map key ts) ->
  filter snd (tabButtons s ts) = [].
Proof.
  induction ts as [|t ts IH]; simpl; [reflexivity|]. intros Hn.
  destruct (streq (activeTab s) (key t)) eqn:E.
  - apply streq_spec in E. exfalso. apply Hn. now left.
  - apply IH. intros H. apply Hn. now right.
Qed.

Lemma find_key_In (k : jsstring) (ts : list Tab) (t : Tab) :
  find (fun tab => streq (key tab) k) ts = Some t -> In t ts /\ key t = k.
Proof.
  intros H. apply find_some in H as [Hin Hk]. now apply streq_spec in Hk.
Qed.

Lemma find_key_present (k : jsstring) (ts : list Tab) (t : Tab) :
  In t ts -> key t = k ->
  exists t', find (fun tab => streq (key tab) k) ts = Some t'.
Proof.
  intros Hin Hk.
  destruct (find (fun tab => streq (key tab) k) ts) as [t'|] eqn:E; [eauto|].
  exfalso. pose proof (find_none _ _ E t Hin) as H. simpl in H.
  assert (streq (key t) k = true) by now apply streq_spec. congruence.
Qed.

(** X5. The tab whose content the dashboard shows is the tab of the first
    button drawn active, and none when no button is; when the keys of the
    tabs are pairwise different at most one button is drawn active. *)
Theorem shown_tab_is_first_active_button (s : State) (ts : list Tab) :
  config s = Some {| tabs := Some ts |} ->
  activeTabData s
  = Normal (hd_error (map fst (filter snd (tabButtons s ts)))) /\
  (NoDup (map key ts) -> List.length (filter snd (tabButtons s ts)) <= 1).
Proof.
  intros Hc. unfold activeTabData. rewrite Hc. simpl. split.
  - f_equal. clear Hc. induction ts as [|t ts IH]; simpl; [reflexivity|].
    rewrite (streq_sym (key t)).
    destruct (streq (activeTab s) (key t)); [reflexivity | exact IH].
  - clear Hc. induction ts as [|t ts IH]; simpl; [intros; lia|]. intros Hn.
    inversion Hn as [|? ? Hnot Hrest]; subst.
    destruct (streq (activeTab s) (key t)) eqn:E; simpl; [|now apply IH].
    apply streq_spec in E. rewrite no_active_button; [simpl; lia|].
    now rewrite E.
Qed.

Section MoreTabFacts.
Variable h : Host.

(** X6. Clicking the button of a tab of the stored configuration makes
    the first tab with that key the active one (the clicked tab itself
    when keys are pairwise different), closes the sidebar in the mobile
    layout and leaves it alone in the desktop layout, and changes neither
    the configuration nor the search text: while a query is typed the
    search panel stays. *)
Theorem tab_click_selects (w : World) (ts : list Tab) (t : Tab) :
  config (st w) = Some {| tabs := Some ts |} ->
  In t ts ->
  exists t',
    activeTabData (st (step h w (ClickTab (key t)))) = Normal (Some t') /\
    key t' = key t /\
    (NoDup (map key ts) -> t' = t) /\
    sidebarOpen (st (step h w (ClickTab (key t))))
    = (if isMobile (st w) then false else sidebarOpen (st w)) /\
    config (st (step h w (ClickTab (key t)))) = config (st w) /\
    searchQuery (st (step h w (ClickTab (key t)))) = searchQuery (st w).
Proof.
  intros Hc Hin.
  destruct (find_key_present (key t) ts t Hin eq_refl) as [t' Ht'].
  exists t'. destruct (find_key_In _ _ _ Ht') as [Hin' Hk].
  assert (activeTabData (st (step h w (ClickTab (key t)))) = Normal (Some t'))
    as Ha.
  { unfold activeTabData, step, perform, applyEffects.
    destruct (isMobile (st w)); simpl; rewrite Hc; simpl; now rewrite Ht'. }
  split; [exact Ha | split; [exact Hk | split]].
  - intros Hn. now apply key_injective with (ts := ts).
  - unfold step, perform, applyEffects.
    destruct (isMobile (st w)); repeat split.
Qed.

(** X8. Once the stored configuration is a document without [tabs], every
    render throws a [TypeError], whatever the rest of the state: also
    while loading and when an error is set. A load of such a document
    leaves the component in that state. *)
Theorem unshaped_configuration_breaks_render
        (w : World) (i : nat) (l : Load) (c : Config) :
  findLoad i w = Some l ->
  tabs c = None ->
  config (st (step h w (ScriptLoad i (Assigns c)))) = Some c /\
  forall s, config s = Some c -> render h s = Throw TypeError.
Proof.
  intros Hl Ht. split.
  - rewrite (config_after_assign h w i l c Hl). simpl. now rewrite Ht.
  - intros s Hc. unfold render, activeTabData, searchResults.
    rewrite Hc, Ht. now destruct (negb (truthy (trim (searchQuery s)))).
Qed.

End MoreTabFacts.

(* ===================================================================== *)
(** * More on loading *)
(* ===================================================================== *)

Lemma toastsOf_app (a b : list Effect) :
  toastsOf (a ++ b) = toastsOf a ++ toastsOf b.
Proof.
  induction a as [|e a IH]; simpl; [reflexivity|].
  destruct e; simpl; now rewrite IH.
Qed.

Lemma applyEffects_app (s : State) (a b : list Effect) :
  applyEffects s (a ++ b) = applyEffects (applyEffects s a) b.
Proof. unfold applyEffects. now rewrite updatesOf_app, fold_left_app. Qed.

Lemma config_kept_by_updates (us : list Update) (s : State) :
  config s <> None -> config (fold_left applyUpdate us s) <> None.
Proof.
  revert s; induction us as [|u us IH]; intros s Hs; [exact Hs|].
  simpl. apply IH. destruct u; simpl; [discriminate | assumption ..].
Qed.

(** Setter calls of a load leave the search text, the copied mark, the
    sidebar, the layout and the mounted flag alone. *)
Lemma load_updates_keep (us : list Update) (s : State) :
  Forall (fun u => isLoadUpdate u = true) us ->
  searchQuery (fold_left applyUpdate us s) = searchQuery s /\
  copiedUrl (fold_left applyUpdate us s) = copiedUrl s /\
  sidebarOpen (fold_left applyUpdate us s) = sidebarOpen s /\
  isMobile (fold_left applyUpdate us s) = isMobile s /\
  mounted (fold_left applyUpdate us s) = mounted s.
Proof.
  intros H. revert s. induction H as [|u us Hu _ IH]; intros s.
  - repeat split.
  - simpl. destruct (IH (applyUpdate s u)) as (H1 & H2 & H3 & H4 & H5).
    rewrite H1, H2, H3, H4, H5. destruct u; try discriminate; repeat split.
Qed.

(** What [script.onload] does in each of its cases: it shows no toast of
    its own, settles the promise, calls only the setters of a load and
    ends with [loading] cleared. *)
Lemma onload_outcome (a : jsstring) (g : option Config) (s : State) :
  toastsOf (Eff.effects (script_onload a g)) = [] /\
  (settlement (Eff.effects (script_onload a g)) = Some (Normal tt) \/
   exists e, settlement (Eff.effects (script_onload a g)) = Some (Throw e)) /\
  Forall (fun u => isLoadUpdate u = true)
         (updatesOf (Eff.effects (script_onload a g))) /\
  loading (fold_left applyUpdate
             (updatesOf (Eff.effects (script_onload a g))) s) = false.
Proof.
  destruct g as [c|].
  - unfold script_onload, readTabs.
    destruct (truthy a); [|destruct (tabs c) as [[|t ts]|]]; simpl;
      (split; [reflexivity | split; [|split; [repeat constructor | reflexivity]]]);
      first [left; reflexivity | right; eexists; reflexivity].
  - rewrite onload_absent.
    split; [reflexivity | split; [|split; [repeat constructor | reflexivity]]].
    right; eexists; reflexivity.
Qed.

(** A promise settled by a handler stays settled the same way whatever
    follows. *)
Lemma settlement_app_settled (a b : list Effect) (r : Completion unit) :
  settlement a = Some r -> settlement (a ++ b) = settlement a.
Proof.
  induction a as [|e a IH]; simpl; [discriminate|].
  destruct e; try exact IH; reflexivity.
Qed.

Section MoreLoadFacts.
Variable h : Host.

(** Every event acts on the component state through setter calls. *)
Lemma step_applies (w : World) (e : Event) :
  exists l, st (step h w e) = applyEffects (st w) l.
Proof.
  destruct e as [n| |i d|i|k|q|]; simpl.
  - eexists. unfold requestLoad, perform. simpl.
    rewrite <- applyEffects_app. reflexivity.
  - eexists. reflexivity.
  - destruct (findLoad i w); [eexists; reflexivity | now exists []].
  - destruct (findLoad i w); [eexists; reflexivity | now exists []].
  - eexists. reflexivity.
  - eexists. reflexivity.
  - eexists. reflexivity.
Qed.

(** X9. No event takes a stored configuration away: once a configuration
    is stored, one is stored after every event, failed loads included. *)
Theorem configuration_never_removed (w : World) (e : Event) :
  config (st w) <> None -> config (st (step h w e)) <> None.
Proof.
  intros H. destruct (step_applies w e) as [l ->].
  now apply config_kept_by_updates.
Qed.

(** X10. Requesting a load and the completion of a load, by a script that
    ran or one that failed, change neither the search text nor the copied
    mark, the sidebar, the layout or the mounted flag. *)
Theorem load_keeps_interface_state (w : World) (i : nat) (d : Document) (e : Event) :
  e = ClickReload \/ e = ScriptLoad i d \/ e = ScriptError i ->
  searchQuery (st (step h w e)) = searchQuery (st w) /\
  copiedUrl (st (step h w e)) = copiedUrl (st w) /\
  sidebarOpen (st (step h w e)) = sidebarOpen (st w) /\
  isMobile (st (step h w e)) = isMobile (st w) /\
  mounted (st (step h w e)) = mounted (st w).
Proof.
  intros [-> | [-> | ->]].
  - unfold step, requestLoad. now destruct (scriptInDocument w).
  - destruct (findLoad i w) as [l|] eqn:El.
    + destruct (step_ScriptLoad h w i l d El) as [_ ->].
      apply load_updates_keep. apply onload_outcome. exact (st w).
    + unfold step. rewrite El. repeat split.
  - destruct (findLoad i w) as [l|] eqn:El.
    + destruct (step_ScriptError h w i l El) as [_ ->]. repeat split.
    + unfold step. rewrite El. repeat split.
Qed.

(** X11. The completion of a pending load always clears [loading] and
    settles the promise, and the only toast is the caller's: none for a
    resolved mount load, "Reloaded" for a resolved reload, the
    configuration error or the reload failure toast for a rejected one. A
    script that fails to load always rejects and sets the error text to
    the load failure message. *)
Theorem completed_load_settles (w : World) (i : nat) (l : Load) (d : Document) :
  findLoad i w = Some l ->
  (loading (st (step h w (ScriptLoad i d))) = false /\
   ((settlement (newEffects w (step h w (ScriptLoad i d))) = Some (Normal tt) /\
     toastsOf (newEffects w (step h w (ScriptLoad i d)))
     = toastFor (origin l) true) \/
    (exists e,
       settlement (newEffects w (step h w (ScriptLoad i d))) = Some (Throw e) /\
       toastsOf (newEffects w (step h w (ScriptLoad i d)))
       = toastFor (origin l) false))) /\
  (loading (st (step h w (ScriptError i))) = false /\
   error (st (step h w (ScriptError i))) = Some (Text loadFailed) /\
   settlement (newEffects w (step h w (ScriptError i)))
   = Some (Throw (ErrorObject loadFailed)) /\
   toastsOf (newEffects w (step h w (ScriptError i)))
   = toastFor (origin l) false).
Proof.
  intros Hl. split.
  - destruct (step_ScriptLoad h w i l d Hl) as [-> ->].
    destruct (onload_outcome (closure_activeTab l)
                (runDocument h d (dashboardConfig w)) (st w))
      as (Ht & Hs & _ & Hload).
    split; [exact Hload|]. rewrite toastsOf_app, Ht.
    destruct Hs as [Hs|[e Hs]].
    + left. erewrite settlement_app_settled by exact Hs. rewrite Hs.
      split; [reflexivity | now destruct (origin l)].
    + right. exists e. erewrite settlement_app_settled by exact Hs. rewrite Hs.
      split; [reflexivity | now destruct (origin l)].
  - destruct (step_ScriptError h w i l Hl) as [-> ->].
    repeat split; now destruct (origin l).
Qed.

End MoreLoadFacts.

Section ReloadFacts.
Variable h : Host.

(** X12. Requesting a load sets [loading], clears the error and keeps the
    stored configuration; with a readable configuration the render is the
    loading view, so during a reload the dashboard and an earlier error
    are both hidden. *)
Theorem requested_load_shows_loading (w : World) :
  shaped (config (st w)) = true ->
  loading (st (step h w ClickReload)) = true /\
  error (st (step h w ClickReload)) = None /\
  config (st (step h w ClickReload)) = config (st w) /\
  render h (st (step h w ClickReload)) = Normal LoadingView.
Proof.
  intros Hs.
  assert (loading (st (step h w ClickReload)) = true /\
          error (st (step h w ClickReload)) = None /\
          config (st (step h w ClickReload)) = config (st w))
    as (Hl & He & Hc)
    by (unfold step, requestLoad; now destruct (scriptInDocument w)).
  repeat split; try assumption.
  unfold render. rewrite <- Hc in Hs.
  destruct (searchResults_shaped h (searchQuery (st (step h w ClickReload))) _ Hs)
    as [r ->].
  destruct (activeTabData_shaped _ Hs) as [t ->]. unfold andThen.
  now rewrite Hl.
Qed.

(** X13. A reload (or retry) whose script brings a document with tabs
    recovers a mounted component from any state, an error view included:
    afterwards no error is set, loading is over, the stored tabs are the
    rewritten tabs of the document, and with an empty search box the
    dashboard is rendered. *)
Theorem reload_recovers (w : World) (ts : list Tab) :
  mounted (st w) = true ->
  searchQuery (st w) = [] ->
  error (st (run h w [ClickReload;
                      ScriptLoad (issued w) (Assigns {| tabs := Some ts |})]))
  = None /\
  loading (st (run h w [ClickReload;
                        ScriptLoad (issued w) (Assigns {| tabs := Some ts |})]))
  = false /\
  config (st (run h w [ClickReload;
                       ScriptLoad (issued w) (Assigns {| tabs := Some ts |})]))
  = Some {| tabs := Some (map (rewriteTab h) ts) |} /\
  exists v,
    render h (st (run h w [ClickReload;
                           ScriptLoad (issued w) (Assigns {| tabs := Some ts |})]))
    = Normal v /\ isDashboard v = true.
Proof.
  intros Hm Hq. unfold run. cbn [fold_left].
  change (step h w ClickReload) with (requestLoad FromReload w).
  pose proof (findLoad_requested FromReload w) as Hl.
  set (w1 := requestLoad FromReload w) in *.
  set (l := {| load_id := issued w; closure_activeTab := activeTab (st w);
               origin := FromReload |}) in *.
  set (d := Assigns {| tabs := Some ts |}).
  assert (error (st w1) = None /\ mounted (st w1) = true /\
          searchQuery (st w1) = []) as (He1 & Hm1 & Hq1)
    by (unfold w1, requestLoad; now destruct (scriptInDocument w)).
  assert (config (st (step h w1 (ScriptLoad (issued w) d)))
          = Some {| tabs := Some (map (rewriteTab h) ts) |}) as Hc
    by exact (config_after_assign h w1 (issued w) l _ Hl).
  destruct (load_updates_keep
              (updatesOf (Eff.effects (script_onload (closure_activeTab l)
                            (runDocument h d (dashboardConfig w1)))))
              (st w1)) as (Hq2 & _ & _ & _ & Hm2);
    [apply onload_outcome; exact (st w1)|].
  destruct (onload_outcome (closure_activeTab l)
              (runDocument h d (dashboardConfig w1)) (st w1))
    as (_ & _ & _ & Hload).
  assert (error (st (step h w1 (ScriptLoad (issued w) d))) = None) as He.
  { destruct (step_ScriptLoad h w1 (issued w) l d Hl) as [_ ->].
    unfold d. simpl runDocument.
    rewrite (onload_shaped (closure_activeTab l)
               {| tabs := Some (map (rewriteTab h) ts) |} _ eq_refl).
    destruct (truthy (closure_activeTab l)); [exact He1|].
    destruct (map (rewriteTab h) ts); exact He1. }
  destruct (step_ScriptLoad h w1 (issued w) l d Hl) as [_ Hst].
  rewrite <- Hst in Hq2, Hm2, Hload.
  split; [exact He | split; [exact Hload | split; [exact Hc|]]].
  destruct (render_idle h (st (step h w1 (ScriptLoad (issued w) d)))
              (map (rewriteTab h) ts)) as (v & Hv & Hd & _).
  - exact Hc.
  - exact Hload.
  - now rewrite Hm2.
  - now rewrite He.
  - now rewrite Hq2.
  - now exists v.
Qed.

(** X14. The global [window.dashboardConfig] is not cleared before a
    reload: when the reloaded script assigns nothing (an empty or
    unparsable file), the document an earlier script left there is stored
    again, the promise is resolved and the "Reloaded" toast is shown. *)
Theorem silent_reload_reports_success (w : World) (c : Config) (ts : list Tab) :
  dashboardConfig w = Some c ->
  tabs c = Some ts ->
  config (st (run h w [ClickReload; ScriptLoad (issued w) Silent])) = Some c /\
  settlement (newEffects (step h w ClickReload)
                (run h w [ClickReload; ScriptLoad (issued w) Silent]))
  = Some (Normal tt) /\
  toastsOf (newEffects (step h w ClickReload)
              (run h w [ClickReload; ScriptLoad (issued w) Silent]))
  = [ReloadedToast].
Proof.
  intros Hg Ht. unfold run. cbn [fold_left].
  change (step h w ClickReload) with (requestLoad FromReload w).
  pose proof (findLoad_requested FromReload w) as Hl.
  destruct (step_ScriptLoad h (requestLoad FromReload w) (issued w) _ Silent Hl)
    as [-> ->].
  cbn [closure_activeTab origin runDocument].
  assert (dashboardConfig (requestLoad FromReload w) = Some c) as ->
      by (unfold requestLoad; simpl; exact Hg).
  rewrite (onload_shaped _ _ _ Ht).
  destruct (truthy (activeTab (st w))); [|destruct ts]; repeat split.
Qed.

End ReloadFacts.

(* ===================================================================== *)
(** * More on the configuration document *)
(* ===================================================================== *)

Lemma localhost_plain : ~ In dollar localhost.
Proof. unfold localhost. simpl. intuition discriminate. Qed.

Lemma replace_same (s pat : jsstring) :
  ~ In dollar pat -> replace s pat pat = s.
Proof.
  intros Hp. destruct (replace_first s pat pat Hp) as [[_ H]|(a & b & Hs & _ & H)].
  - exact H.
  - now rewrite H, Hs.
Qed.

Section MoreConfigScriptFacts.
Variable h : Host.

Lemma rewriteTab_fixed (t : Tab) :
  (forall u, rewriteUrl h u = u) ->
  (forall a, (if truthy a && includes a localhost
              then Some (replace a localhost (hostname h)) else Some a) = Some a) ->
  rewriteTab h t = t.
Proof.
  intros Hu Ha. destruct t as [n k i m ic tt svcs]. unfold rewriteTab. simpl.
  rewrite Hu. f_equal.
  induction svcs as [|s svcs IH]; simpl; [reflexivity|]. rewrite IH. f_equal.
  destruct s as [sn su sd [a|] si]; unfold rewriteService; simpl;
    rewrite Hu; [now rewrite Ha | reflexivity].
Qed.

(** X15. When the page is served under the name [localhost] the rewriting
    changes nothing: every tab of the document is stored as it is
    written. *)
Theorem served_from_localhost_keeps_document
        (w : World) (i : nat) (l : Load) (ts : list Tab) :
  hostname h = localhost ->
  findLoad i w = Some l ->
  config (st (step h w (ScriptLoad i (Assigns {| tabs := Some ts |}))))
  = Some {| tabs := Some ts |}.
Proof.
  intros Hh Hl. rewrite (config_after_assign h w i l _ Hl).
  simpl. do 3 f_equal.
  induction ts as [|t ts IH]; simpl; [reflexivity|]. rewrite IH. f_equal.
  apply rewriteTab_fixed.
  - intros u. unfold rewriteUrl. rewrite Hh.
    destruct (includes u localhost); [|reflexivity].
    apply replace_same, localhost_plain.
  - intros a. rewrite Hh. destruct (truthy a && includes a localhost);
      [|reflexivity].
    f_equal. apply replace_same, localhost_plain.
Qed.

Lemma rewriteTab_unmentioned (t : Tab) :
  mentionsLocalhost t = false -> rewriteTab h t = t.
Proof.
  unfold mentionsLocalhost. intros H.
  apply orb_false_iff in H as [Hm Hs].
  destruct t as [n k i m ic tt svcs]. unfold rewriteTab, rewriteUrl. simpl in *.
  rewrite Hm. f_equal.
  induction svcs as [|s svcs IH]; simpl in *; [reflexivity|].
  apply orb_false_iff in Hs as [Hs Hrest]. rewrite (IH Hrest). f_equal.
  apply orb_false_iff in Hs as [Hu Ha].
  destruct s as [sn su sd [a|] si]; unfold rewriteService, rewriteUrl;
    simpl in *; rewrite Hu; [|reflexivity].
  now rewrite Ha, andb_false_r.
Qed.

(** X16. A document none of whose addresses contains [localhost] is
    stored exactly as it is written, whatever the hostname of the page,
    names with a dollar sign included. *)
Theorem document_without_localhost_kept
        (w : World) (i : nat) (l : Load) (ts : list Tab) :
  forallb (fun t => negb (mentionsLocalhost t)) ts = true ->
  findLoad i w = Some l ->
  config (st (step h w (ScriptLoad i (Assigns {| tabs := Some ts |}))))
  = Some {| tabs := Some ts |}.
Proof.
  intros H Hl. rewrite (config_after_assign h w i l _ Hl).
  simpl. do 3 f_equal.
  induction ts as [|t ts IH]; simpl in *; [reflexivity|].
  apply andb_true_iff in H as [Ht Hrest]. rewrite (IH Hrest). f_equal.
  apply rewriteTab_unmentioned. now apply negb_true_iff.
Qed.

End MoreConfigScriptFacts.

(* ===================================================================== *)
(** * More on the clipboard *)
(* ===================================================================== *)

Section MoreClipboardFacts.
Variable h : Host.

(** The effects of a copy that goes through, the vibration apart. *)
Lemma copy_success_effects (d : Device) (s : State) (url label : jsstring) :
  copySucceeds d url ->
  Eff.completion (copyToClipboard h d s url label) = Normal tt /\
  updatesOf (Eff.effects (copyToClipboard h d s url label))
  = [SetCopiedUrl (Some url)] /\
  toastsOf (Eff.effects (copyToClipboard h d s url label))
  = [CopiedToast label] /\
  timersOf (Eff.effects (copyToClipboard h d s url label))
  = [(1500, SetCopiedUrl None)].
Proof.
  unfold copySucceeds, copyToClipboard, triggerHapticForCopy.
  intros [[Hc Hw]|[Hc He]]; rewrite Hc.
  - rewrite Hw. now destruct (canVibrate d).
  - rewrite He. now destruct (canVibrate d).
Qed.

(** X17. When the copy goes through, by the secure write or, where that
    is not available, by the copy command, the promise is fulfilled, the
    copied mark becomes exactly the URL passed, the only toast is
    "Copied" with the label passed, and one timer of 1500 ms is started
    whose callback clears the mark. *)
Theorem copy_success_marks_url (d : Device) (s : State) (url label : jsstring) :
  copySucceeds d url ->
  Eff.completion (copyToClipboard h d s url label) = Normal tt /\
  copiedUrl (applyEffects s (Eff.effects (copyToClipboard h d s url label)))
  = Some url /\
  toastsOf (Eff.effects (copyToClipboard h d s url label))
  = [CopiedToast label] /\
  exists u,
    timersOf (Eff.effects (copyToClipboard h d s url label)) = [(1500, u)] /\
    copiedUrl (applyUpdate
                 (applyEffects s (Eff.effects (copyToClipboard h d s url label)))
                 u) = None.
Proof.
  intros H.
  destruct (copy_success_effects d s url label H) as (Hc & Hu & Ht & Htm).
  unfold applyEffects. rewrite Hu, Htm.
  repeat split; try assumption. now exists (SetCopiedUrl None).
Qed.

(** X18. The copy command is a substitute for a missing secure clipboard,
    not a second attempt: when the clipboard is there in a secure context
    and its write is refused, the copy fails with the "Copy Failed" toast
    and no state change, even if the copy command would have worked. *)
Theorem refused_secure_write_is_final (d : Device) (s : State) (url label : jsstring) (e : Exn) :
  clipboardPresent d && isSecureContext d = true ->
  writeText d url = Throw e ->
  Eff.completion (copyToClipboard h d s url label) = Normal tt /\
  toastsOf (Eff.effects (copyToClipboard h d s url label)) = [CopyFailedToast] /\
  updatesOf (Eff.effects (copyToClipboard h d s url label)) = [] /\
  timersOf (Eff.effects (copyToClipboard h d s url label)) = [].
Proof.
  intros Hc Hw. unfold copyToClipboard, triggerHapticForCopy.
  rewrite Hc, Hw.
  destruct (canVibrate d), (isMobile s); simpl;
    try destruct (includes (toLowerCase h (userAgent d)) (js "ios")
                  || includes (toLowerCase h (userAgent d)) (js "iphone")
                  || includes (toLowerCase h (userAgent d)) (js "ipad"));
    repeat split.
Qed.

(** X19. The timer of a copy clears the mark whatever it shows by then:
    after two copies that go through, when the timer of the first fires
    the mark of the second is cleared with it. *)
Theorem earlier_timer_clears_later_mark
        (d1 d2 : Device) (s : State) (url1 label1 url2 label2 : jsstring) :
  copySucceeds d1 url1 ->
  copySucceeds d2 url2 ->
  copiedUrl (applyEffects
               (applyEffects s (Eff.effects (copyToClipboard h d1 s url1 label1)))
               (Eff.effects
                  (copyToClipboard h d2
                     (applyEffects s (Eff.effects (copyToClipboard h d1 s url1 label1)))
                     url2 label2)))
  = Some url2 /\
  forall ms u,
    In (ms, u) (timersOf (Eff.effects (copyToClipboard h d1 s url1 label1))) ->
    copiedUrl
      (applyUpdate
         (applyEffects
            (applyEffects s (Eff.effects (copyToClipboard h d1 s url1 label1)))
            (Eff.effects
               (copyToClipboard h d2
                  (applyEffects s (Eff.effects (copyToClipboard h d1 s url1 label1)))
                  url2 label2)))
         u) = None.
Proof.
  intros H1 H2.
  destruct (copy_success_effects d1 s url1 label1 H1) as (_ & Hu1 & _ & Ht1).
  destruct (copy_success_effects d2
              (applyEffects s (Eff.effects (copyToClipboard h d1 s url1 label1)))
              url2 label2 H2) as (_ & Hu2 & _ & _).
  unfold applyEffects in *. rewrite Hu2, Ht1. split; [reflexivity|].
  intros ms u [[= <- <-]|[]]. reflexivity.
Qed.

End MoreClipboardFacts.

(* ===================================================================== *)
(** * More on the sidebar and the theme *)
(* ===================================================================== *)

(** X21. A [mousedown] never opens the sidebar and touches nothing else:
    it closes an open sidebar exactly in the mobile layout when the
    sidebar and the menu button are both in the document and neither
    contains the target, so a press inside the sidebar or on the menu
    button, or any press in the desktop layout, leaves the state as it
    is. *)
Theorem click_outside_only_closes (s : State) (c : Click) :
  sidebarOpen (applyEffects s (handleClickOutside s c))
  = sidebarOpen s
    && negb (isMobile s && sidebarFound c && negb (inSidebar c)
             && menuFound c && negb (inMenu c)) /\
  (isMobile s = false \/ inSidebar c = true \/ inMenu c = true ->
   applyEffects s (handleClickOutside s c) = s) /\
  config (applyEffects s (handleClickOutside s c)) = config s /\
  activeTab (applyEffects s (handleClickOutside s c)) = activeTab s /\
  searchQuery (applyEffects s (handleClickOutside s c)) = searchQuery s.
Proof.
  unfold handleClickOutside, applyEffects.
  destruct (isMobile s) eqn:Em, (sidebarOpen s) eqn:Eo, (sidebarFound c),
    (inSidebar c) eqn:Ei, (menuFound c), (inMenu c) eqn:En; simpl;
    rewrite ?Eo; repeat split; intros [H|[H|H]]; discriminate.
Qed.

(** X22. [toggleTheme] does nothing before the component is mounted; once
    mounted it asks for the light theme exactly when the resolved theme is
    dark and for the dark theme in every other case, so from a resolved
    light or dark theme a second toggle asks for the first theme again. *)
Theorem toggleTheme_flips (r : option jsstring) :
  toggleTheme false r = None /\
  (exists t, toggleTheme true r = Some t /\
             (t = light \/ t = dark) /\ (t = light <-> r = Some dark)) /\
  (forall r' t, r = Some r' -> r' = light \/ r' = dark ->
                toggleTheme true r = Some t ->
                toggleTheme true (Some t) = r).
Proof.
  split; [reflexivity | split].
  - unfold toggleTheme. simpl. destruct r as [r'|]; simpl.
    + destruct (streq r' dark) eqn:E.
      * apply streq_spec in E. subst. exists light. repeat split; auto.
      * exists dark. repeat split; auto; try discriminate.
        intros [= ->]. now rewrite (proj2 (streq_spec dark dark)) in E.
    + exists dark. repeat split; auto; discriminate.
  - intros r' t -> [-> | ->] [= <-]; reflexivity.
Qed.

(* ===================================================================== *)
(** * Sequences of events *)
(* ===================================================================== *)

Lemma streq_refl (a : jsstring) : streq a a = true.
Proof. now apply streq_spec. Qed.

Section SequenceFacts.
Variable h : Host.

(** X23. When two loads are pending, the script of the newer one brings
    a document with tabs and the script of the older one then fails to
    load, the stored configuration is the newer document but a mounted
    component shows the error view with the load failure message. *)
Theorem stale_failure_hides_newer_configuration
        (w : World) (i j : nat) (li lj : Load) (ts : list Tab) :
  findLoad i w = Some li ->
  findLoad j w = Some lj ->
  i < j ->
  mounted (st w) = true ->
  config (st (run h w [ScriptLoad j (Assigns {| tabs := Some ts |});
                       ScriptError i]))
  = Some {| tabs := Some (map (rewriteTab h) ts) |} /\
  render h (st (run h w [ScriptLoad j (Assigns {| tabs := Some ts |});
                         ScriptError i]))
  = Normal (ErrorView (Text loadFailed)).
Proof.
  intros Hi Hj Hlt Hm. unfold run. cbn [fold_left].
  set (w3 := step h w (ScriptLoad j (Assigns {| tabs := Some ts |}))).
  assert (findLoad i w3 = Some li) as H3.
  { unfold w3, step. rewrite Hj. unfold findLoad at 1, completeLoad.
    cbn [pending]. replace (load_id lj) with j.
    - rewrite find_dropLoad by lia. exact Hi.
    - unfold findLoad in Hj. apply find_some in Hj as [_ Hj].
      apply Nat.eqb_eq in Hj. now symmetry. }
  assert (config (st w3) = Some {| tabs := Some (map (rewriteTab h) ts) |}) as Hc
    by exact (config_after_assign h w j lj _ Hj).
  assert (mounted (st w3) = true) as Hm3.
  { unfold w3.
    destruct (step_ScriptLoad h w j lj (Assigns {| tabs := Some ts |}) Hj)
      as [_ ->].
    transitivity (mounted (st w));
      [apply load_updates_keep, onload_outcome; exact (st w) | exact Hm]. }
  destruct (step_ScriptError h w3 i li H3) as [_ Hst].
  assert (config (st (step h w3 (ScriptError i))) = config (st w3)) as Hc4
    by now rewrite Hst.
  split; [now rewrite Hc4|].
  apply render_error.
  - now rewrite Hc4, Hc.
  - now rewrite Hst.
  - rewrite Hst. exact Hm3.
  - now rewrite Hst.
Qed.

(** X24. On a first visit, once the script has brought a document whose
    tabs start with [t], the dashboard is rendered without a search panel
    and shows the content of [t] with its addresses rewritten, in the
    mobile layout when the window is narrower than 768 pixels at mount
    and in the desktop layout otherwise. *)
Theorem first_visit_shows_first_tab (n : nat) (t : Tab) (ts : list Tab) :
  exists v,
    render h (st (run h initialWorld
                      [Mount n; ScriptLoad 0 (Assigns {| tabs := Some (t :: ts) |})]))
    = Normal v /\
    tabContentOf v = Some (rewriteTab h t) /\
    searchPanelOf v = None /\
    match v with
    | MobileView _ _ _ _ _ => n < 768
    | DesktopView _ _ _ _ => 768 <= n
    | _ => False
    end.
Proof.
  unfold run, render, activeTabData, searchResults. simpl.
  rewrite streq_refl. simpl.
  destruct (Nat.ltb_spec n 768) as [Hn|Hn]; eexists; repeat split; assumption.
Qed.

End SequenceFacts.

(* ===================================================================== *)
(** * The further properties on concrete pages *)
(* ===================================================================== *)

Lemma loadedWorld_config : config (st loadedWorld) = Some {| tabs := Some twoTabs |}.
Proof. reflexivity. Qed.

Lemma twoTabs_keys : NoDup (map key twoTabs).
Proof.
  repeat constructor; simpl; intuition discriminate.
Qed.

(** X1 on the two-tab scenario: from [git] to [gite]. *)
Lemma search_narrows_witness :
  blank (js "git") = false /\
  occursIn (toLowerCase demoHost (js "git")) (toLowerCase demoHost (js "gite")) /\
  exists r1 r2 keep,
    searchResults demoHost (js "git") (Some {| tabs := Some twoTabs |}) = Normal r1 /\
    searchResults demoHost (js "gite") (Some {| tabs := Some twoTabs |}) = Normal r2 /\
    r2 = filter keep r1.
Proof.
  assert (occursIn (toLowerCase demoHost (js "git"))
                   (toLowerCase demoHost (js "gite"))) as Ho
      by (exists [], (js "e"); reflexivity).
  split; [reflexivity | split; [exact Ho|]].
  exact (search_narrows demoHost twoTabs (js "git") (js "gite") eq_refl Ho).
Defined.

(** X3 on the two-tab scenario with the query [git]. *)
Lemma search_panel_shows_results_witness :
  exists v results cards,
    render demoHost (readyState twoTabs "a" "git" false) = Normal v /\
    searchResults demoHost (js "git") (Some {| tabs := Some twoTabs |})
    = Normal results /\
    searchPanelOf v = Some cards /\
    List.length results = List.length cards.
Proof.
  pose (v := match render demoHost (readyState twoTabs "a" "git" false) with
             | Normal v => v
             | Throw _ => LoadingView
             end).
  assert (render demoHost (readyState twoTabs "a" "git" false) = Normal v) as Hv
      by reflexivity.
  assert (searchQuery (readyState twoTabs "a" "git" false) <> []) as Hq
      by discriminate.
  destruct (search_panel_shows_results demoHost
              (readyState twoTabs "a" "git" false) twoTabs v
              eq_refl eq_refl eq_refl eq_refl Hq Hv)
    as (results & cards & Hs & Hp & Hall).
  exists v, results, cards. repeat split; try assumption.
  exact (Forall2_length Hall).
Defined.

(** X4 on the two-tab scenario in the desktop layout with an empty query. *)
Lemma tab_buttons_offered_witness :
  exists v,
    render demoHost (readyState twoTabs "a" "" false) = Normal v /\
    tabListOf v = Some (tabButtons (readyState twoTabs "a" "" false) twoTabs).
Proof.
  pose (v := match render demoHost (readyState twoTabs "a" "" false) with
             | Normal v => v
             | Throw _ => LoadingView
             end).
  assert (render demoHost (readyState twoTabs "a" "" false) = Normal v) as Hv
      by reflexivity.
  exists v. split; [exact Hv|].
  exact (proj1 (tab_buttons_offered demoHost
                  (readyState twoTabs "a" "" false) twoTabs v
                  eq_refl eq_refl eq_refl eq_refl Hv)).
Defined.

(** X5 on the two-tab scenario with tab [a] active. *)
Lemma shown_tab_is_first_active_button_witness :
  NoDup (map key twoTabs) /\
  activeTabData (readyState twoTabs "a" "" false)
  = Normal (hd_error (map fst (filter snd
              (tabButtons (readyState twoTabs "a" "" false) twoTabs)))) /\
  List.length (filter snd (tabButtons (readyState twoTabs "a" "" false) twoTabs))
  <= 1.
Proof.
  destruct (shown_tab_is_first_active_button
              (readyState twoTabs "a" "" false) twoTabs eq_refl) as [H1 H2].
  split; [exact twoTabs_keys | split; [exact H1 | exact (H2 twoTabs_keys)]].
Defined.

(** X6 on the loaded two-tab page: clicking tab [b]. *)
Lemma tab_click_selects_witness :
  exists t',
    activeTabData (st (step demoHost loadedWorld (ClickTab (js "b"))))
    = Normal (Some t') /\
    t' = mkTab "b" "http://y" [gitea].
Proof.
  destruct (tab_click_selects demoHost loadedWorld twoTabs
              (mkTab "b" "http://y" [gitea]) loadedWorld_config
              (or_intror (or_introl eq_refl)))
    as (t' & Ha & _ & Hn & _).
  exists t'. split; [exact Ha | exact (Hn twoTabs_keys)].
Defined.

(** X8 on the first load of a page. *)
Lemma unshaped_configuration_breaks_render_witness :
  config (st (step demoHost mountedWorld (ScriptLoad 0 (Assigns unshapedConfig))))
  = Some unshapedConfig /\
  render demoHost
         (st (step demoHost mountedWorld (ScriptLoad 0 (Assigns unshapedConfig))))
  = Throw TypeError.
Proof.
  destruct (unshaped_configuration_breaks_render demoHost mountedWorld 0
              {| load_id := 0; closure_activeTab := []; origin := FromMount |}
              unshapedConfig eq_refl eq_refl) as [Hc Hr].
  split; [exact Hc | exact (Hr _ Hc)].
Defined.

(** X9 on the loaded two-tab page when the script of a reload fails. *)
Lemma configuration_never_removed_witness :
  config (st loadedWorld) <> None /\
  config (st (step demoHost (step demoHost loadedWorld ClickReload)
                   (ScriptError 1))) <> None.
Proof.
  assert (config (st loadedWorld) <> None) as H0 by discriminate.
  split; [exact H0|].
  apply (configuration_never_removed demoHost).
  apply (configuration_never_removed demoHost). exact H0.
Defined.

(** X10 on the loaded two-tab page with a query typed. *)
Lemma load_keeps_interface_state_witness :
  searchQuery (st (step demoHost (step demoHost loadedWorld (ChangeQuery (js "git")))
                        ClickReload))
  = js "git".
Proof.
  exact (proj1 (load_keeps_interface_state demoHost
                  (step demoHost loadedWorld (ChangeQuery (js "git")))
                  0 Silent ClickReload (or_introl eq_refl))).
Defined.

(** X11 on the first load of a page. *)
Lemma completed_load_settles_witness :
  loading (st (step demoHost mountedWorld (ScriptLoad 0 Silent))) = false /\
  toastsOf (newEffects mountedWorld (step demoHost mountedWorld (ScriptError 0)))
  = [ConfigurationErrorToast].
Proof.
  destruct (completed_load_settles demoHost mountedWorld 0
              {| load_id := 0; closure_activeTab := []; origin := FromMount |}
              Silent eq_refl) as [[Hl _] (_ & _ & _ & Ht)].
  split; [exact Hl | exact Ht].
Defined.

(** X12 on the loaded two-tab page. *)
Lemma requested_load_shows_loading_witness :
  shaped (config (st loadedWorld)) = true /\
  render demoHost (st (step demoHost loadedWorld ClickReload)) = Normal LoadingView.
Proof.
  split; [reflexivity|].
  apply (requested_load_shows_loading demoHost loadedWorld). reflexivity.
Defined.

(** X13 on the page whose reload failed. *)
Lemma reload_recovers_witness :
  error (st failedWorld) = Some (Text loadFailed) /\
  error (st (run demoHost failedWorld
                 [ClickReload;
                  ScriptLoad (issued failedWorld) (Assigns {| tabs := Some twoTabs |})]))
  = None.
Proof.
  split; [reflexivity|].
  exact (proj1 (reload_recovers demoHost failedWorld twoTabs eq_refl eq_refl)).
Defined.

(** X14 on the loaded two-tab page. *)
Lemma silent_reload_reports_success_witness :
  dashboardConfig loadedWorld = Some {| tabs := Some twoTabs |} /\
  toastsOf (newEffects (step demoHost loadedWorld ClickReload)
              (run demoHost loadedWorld
                   [ClickReload; ScriptLoad (issued loadedWorld) Silent]))
  = [ReloadedToast].
Proof.
  split; [reflexivity|].
  exact (proj2 (proj2 (silent_reload_reports_success demoHost loadedWorld
                         {| tabs := Some twoTabs |} twoTabs eq_refl eq_refl))).
Defined.

(** X15 on the tab that names [localhost] twice, served from [localhost]. *)
Lemma served_from_localhost_keeps_document_witness :
  hostname localHost = localhost /\
  config (st (step localHost mountedWorld
                   (ScriptLoad 0 (Assigns {| tabs := Some [localTab] |}))))
  = Some {| tabs := Some [localTab] |}.
Proof.
  split; [reflexivity|].
  exact (served_from_localhost_keeps_document localHost mountedWorld 0
           {| load_id := 0; closure_activeTab := []; origin := FromMount |}
           [localTab] eq_refl eq_refl).
Defined.

(** X16 on the two-tab scenario under a hostname with a dollar sign. *)
Lemma document_without_localhost_kept_witness :
  forallb (fun t => negb (mentionsLocalhost t)) twoTabs = true /\
  config (st (step dollarHost mountedWorld
                   (ScriptLoad 0 (Assigns {| tabs := Some twoTabs |}))))
  = Some {| tabs := Some twoTabs |}.
Proof.
  split; [reflexivity|].
  exact (document_without_localhost_kept dollarHost mountedWorld 0
           {| load_id := 0; closure_activeTab := []; origin := FromMount |}
           twoTabs eq_refl eq_refl).
Defined.

Lemma grantingDevice_succeeds (url : jsstring) : copySucceeds grantingDevice url.
Proof. left. split; reflexivity. Qed.

(** X17 on a device that grants the secure write. *)
Lemma copy_success_marks_url_witness :
  copySucceeds grantingDevice (js "http://x:32400") /\
  copiedUrl (applyEffects (readyState twoTabs "a" "" false)
               (Eff.effects (copyToClipboard demoHost grantingDevice
                               (readyState twoTabs "a" "" false)
                               (js "http://x:32400") (js "Plex"))))
  = Some (js "http://x:32400").
Proof.
  split; [apply grantingDevice_succeeds|].
  exact (proj1 (proj2 (copy_success_marks_url demoHost grantingDevice
                         (readyState twoTabs "a" "" false)
                         (js "http://x:32400") (js "Plex")
                         (grantingDevice_succeeds _)))).
Defined.

(** X18 on a device that refuses the secure write and whose copy command
    would work. *)
Lemma refused_secure_write_is_final_witness :
  execCommandCopy refusingDevice = Normal true /\
  toastsOf (Eff.effects (copyToClipboard demoHost refusingDevice
                           (readyState twoTabs "a" "" false)
                           (js "http://x:32400") (js "Plex")))
  = [CopyFailedToast].
Proof.
  split; [reflexivity|].
  exact (proj1 (proj2 (refused_secure_write_is_final demoHost refusingDevice
                         (readyState twoTabs "a" "" false)
                         (js "http://x:32400") (js "Plex") DOMException
                         eq_refl eq_refl))).
Defined.

(** X19 on two copies on a device that grants the secure write. *)
Lemma earlier_timer_clears_later_mark_witness :
  copiedUrl
    (applyEffects
       (applyEffects (readyState twoTabs "a" "" false)
          (Eff.effects (copyToClipboard demoHost grantingDevice
                          (readyState twoTabs "a" "" false)
                          (js "http://x:32400") (js "Plex"))))
       (Eff.effects
          (copyToClipboard demoHost grantingDevice
             (applyEffects (readyState twoTabs "a" "" false)
                (Eff.effects (copyToClipboard demoHost grantingDevice
                                (readyState twoTabs "a" "" false)
                                (js "http://x:32400") (js "Plex"))))
             (js "http://y:3000") (js "Gitea"))))
  = Some (js "http://y:3000").
Proof.
  exact (proj1 (earlier_timer_clears_later_mark demoHost
                  grantingDevice grantingDevice
                  (readyState twoTabs "a" "" false)
                  (js "http://x:32400") (js "Plex")
                  (js "http://y:3000") (js "Gitea")
                  (grantingDevice_succeeds _) (grantingDevice_succeeds _))).
Defined.

(** X21 on a press inside the open sidebar of the mobile layout. *)
Lemma click_outside_only_closes_witness :
  applyEffects
    (applyUpdate (readyState twoTabs "a" "" true) (SetSidebarOpen true))
    (handleClickOutside
       (applyUpdate (readyState twoTabs "a" "" true) (SetSidebarOpen true))
       {| sidebarFound := true; inSidebar := true;
          menuFound := true; inMenu := false |})
  = applyUpdate (readyState twoTabs "a" "" true) (SetSidebarOpen true).
Proof.
  apply (click_outside_only_closes
           (applyUpdate (readyState twoTabs "a" "" true) (SetSidebarOpen true))
           {| sidebarFound := true; inSidebar := true;
              menuFound := true; inMenu := false |}).
  right. left. reflexivity.
Defined.

(** X22 from the resolved dark theme. *)
Lemma toggleTheme_flips_witness :
  toggleTheme true (Some dark) = Some light /\
  toggleTheme true (Some light) = Some dark.
Proof.
  split; [reflexivity|].
  exact (proj2 (proj2 (toggleTheme_flips (Some dark))) dark light
           eq_refl (or_intror eq_refl) eq_refl).
Defined.

(** X23 on the page whose mount effects ran twice and whose reload was
    requested while the second load was pending. *)
Lemma stale_failure_hides_newer_configuration_witness :
  playable demoHost initialWorld
           (overlapTrace ++ [ScriptLoad 2 (Assigns newerConfig); ScriptError 1])
  = true /\
  mounted (st overlapWorld) = true /\
  render demoHost
         (st (run demoHost overlapWorld
                  [ScriptLoad 2 (Assigns newerConfig); ScriptError 1]))
  = Normal (ErrorView (Text loadFailed)).
Proof.
  split; [reflexivity | split; [reflexivity|]].
  exact (proj2 (stale_failure_hides_newer_configuration demoHost overlapWorld 1 2
                  {| load_id := 1; closure_activeTab := []; origin := FromMount |}
                  {| load_id := 2; closure_activeTab := js "a"; origin := FromReload |}
                  [mkTab "b" "http://y" [gitea]]
                  eq_refl eq_refl (le_n 2) eq_refl)).
Defined.
